(** * CosyVoice model downloader ([download_model.py])

    A shallow embedding of the download script: the model catalog, the two
    transports ([download_via_sdk], [download_via_git]), the post-install
    step ([install_ttsfrd]), the status listing and [main], followed by the
    properties of the orchestration that the specification states.

    The script is effectful throughout: it prints, prompts the operator,
    probes and changes the file system, imports an optional package and
    spawns external commands.  All of this is written out as explicit state
    passing over a [World], with Python exceptions as the [Raise] result of
    a computation.  What the outside world answers (is the SDK importable,
    how does a spawned command end, what does it leave on disk) is not
    decided by the script; it is collected in an [Env] that every function
    takes as a parameter. *)

From Stdlib Require Import Ascii String DecimalString.
From stdpp Require Import gmap strings list fin_maps.

Open Scope string_scope.
Open Scope list_scope.

(** ** Python exceptions *)

(** The built-in and library exception classes the script can meet. *)
Inductive exc_class :=
| BaseException
| Exception
| KeyboardInterrupt
| ImportError
| ModuleNotFoundError
| KeyError
| EOFError
| OSError
| FileNotFoundError
| FileExistsError
| PermissionError
| CalledProcessError
| RuntimeError.

Global Instance exc_class_eq_dec : EqDecision exc_class.
Proof. solve_decision. Defined.

(** The direct base class, as Python declares it ([SubprocessError], the
    base of [CalledProcessError], and [LookupError], the base of
    [KeyError], are skipped: the script never names them). *)
Definition base_class (c : exc_class) : option exc_class :=
  match c with
  | BaseException => None
  | Exception => Some BaseException
  | KeyboardInterrupt => Some BaseException
  | ImportError => Some Exception
  | ModuleNotFoundError => Some ImportError
  | KeyError => Some Exception
  | EOFError => Some Exception
  | OSError => Some Exception
  | FileNotFoundError => Some OSError
  | FileExistsError => Some OSError
  | PermissionError => Some OSError
  | CalledProcessError => Some Exception
  | RuntimeError => Some Exception
  end.

(** [issubclass c d], by walking up at most [fuel] base classes (the
    hierarchy above is four deep). *)
Fixpoint issubclass_fuel (fuel : nat) (c d : exc_class) : bool :=
  if decide (c = d) then true
  else match fuel, base_class c with
       | S fuel', Some b => issubclass_fuel fuel' b d
       | _, _ => false
       end.

Definition issubclass (c d : exc_class) : bool := issubclass_fuel 4 c d.

(** A raised exception: its class and what [str(e)] returns. *)
Record exc := Exc { exc_cls : exc_class; exc_str : string }.

Definition isinstance (e : exc) (c : exc_class) : bool :=
  issubclass (exc_cls e) c.

(** ** The world the script runs in *)

(** A path of the file system is a regular file or a directory. *)
Inductive node := File | Dir.

Global Instance node_eq_dec : EqDecision node.
Proof. solve_decision. Defined.

(** How [subprocess.run] ends before any [check]: the command ran and
    exited with a return code, or spawning it raised (a missing program
    raises [FileNotFoundError]). *)
Inductive proc_result :=
| Exited (returncode : Z)
| SpawnFailed (e : exc).

(** What the script did to the outside world, in order, with the answer
    it got. *)
Inductive event :=
| EvRun (cmd : list string) (r : proc_result)
| EvExists (path : string) (found : bool)
| EvMakedirs (path : string) (ok : bool)
| EvImport (module : string) (failure : option exc)
| EvSnapshot (repo local_dir : string) (failure : option exc)
| EvInput (prompt : string) (answer : option string).

Record World := mkWorld {
  fs : gmap string node;
  stdin : list string;
  stdout : list string;
  trace : list event
}.

(** The behaviour of the external collaborators.  Commands and the SDK see
    the file system and may change it; [sys_executable] is the running
    interpreter, [format_help] the help text argparse builds and
    [signal_repr n] the [repr] of [signal.Signals(n)], when [n] is a signal
    number. *)
Record Env := mkEnv {
  sys_executable : string;
  format_help : string;
  signal_repr : Z -> option string;
  import_modelscope : option exc;
  sdk_snapshot_download :
    string -> string -> gmap string node -> option exc * gmap string node;
  spawn : list string -> gmap string node -> proc_result * gmap string node
}.

(** ** Computations: state passing with exceptions *)

Inductive res (A : Type) :=
| Ok (a : A)
| Raise (e : exc).
Arguments Ok {A} a.
Arguments Raise {A} e.

Definition M (A : Type) : Type := World -> res A * World.

Global Instance M_ret : MRet M := fun A a w => (Ok a, w).

Global Instance M_bind : MBind M := fun A B k c w =>
  match c w with
  | (Ok a, w') => k a w'
  | (Raise e, w') => (Raise e, w')
  end.

Definition raise {A} (e : exc) : M A := fun w => (Raise e, w).

(** [try: body  except ...: ...]: [handler e] is the first clause that
    matches [e], or [None] when no clause does and [e] goes on up. *)
Definition try_except {A} (body : M A) (handler : exc -> option (M A)) : M A :=
  fun w =>
    match body w with
    | (Ok a, w') => (Ok a, w')
    | (Raise e, w') =>
        match handler e with
        | Some h => h w'
        | None => (Raise e, w')
        end
    end.

Definition log (ev : event) (w : World) : World :=
  mkWorld (fs w) (stdin w) (stdout w) (trace w ++ [ev]).

Definition set_fs (fs' : gmap string node) (w : World) : World :=
  mkWorld fs' (stdin w) (stdout w) (trace w).

(** [print(s)]: one entry of [stdout] per call. *)
Definition print (s : string) : M unit := fun w =>
  (Ok tt, mkWorld (fs w) (stdin w) (stdout w ++ [s]) (trace w)).

(** [input(prompt)]: the next line of [stdin], [EOFError] when there is
    none.  The prompt is kept with the answer in the trace. *)
Definition input (prompt : string) : M string := fun w =>
  match stdin w with
  | [] =>
      (Raise (Exc EOFError "EOF when reading a line"),
       log (EvInput prompt None) w)
  | line :: rest =>
      (Ok line,
       log (EvInput prompt (Some line))
         (mkWorld (fs w) rest (stdout w) (trace w)))
  end.

(** [Path(p).exists()]. *)
Definition path_exists (p : string) : M bool := fun w =>
  let found := match fs w !! p with Some _ => true | None => false end in
  (Ok found, log (EvExists p found) w).

(** [os.makedirs(p, exist_ok=True)] for a path of one component, which is
    all the script passes: nothing to do on a directory, [FileExistsError]
    on a regular file, and the directory is created otherwise. *)
Definition makedirs (p : string) : M unit := fun w =>
  match fs w !! p with
  | Some Dir => (Ok tt, log (EvMakedirs p true) w)
  | Some File =>
      (Raise (Exc FileExistsError ("[Errno 17] File exists: '" +:+ p +:+ "'")),
       log (EvMakedirs p false) w)
  | None => (Ok tt, log (EvMakedirs p true) (set_fs (<[p := Dir]> (fs w)) w))
  end.

(** ** Text helpers *)

Definition nl : string := String "010"%char "".

(** [s * n] on strings. *)
Fixpoint str_mul (s : string) (n : nat) : string :=
  match n with
  | 0 => ""
  | S n' => s +:+ str_mul s n'
  end.

Definition str_of_nat (n : nat) : string :=
  NilZero.string_of_uint (Nat.to_uint n).

Definition str_of_Z (z : Z) : string :=
  NilZero.string_of_int (Z.to_int z).

(** [repr] of a string and of a list of strings, for text without quotes,
    backslashes or control characters (the commands of this script). *)
Definition repr_str (s : string) : string := "'" +:+ s +:+ "'".

Definition repr_list (l : list string) : string :=
  "[" +:+ String.concat ", " (map repr_str l) +:+ "]".

(** [str.lower()] on ASCII letters; other bytes are kept. *)
Definition lower_ascii (c : ascii) : ascii :=
  let n := nat_of_ascii c in
  if (65 <=? n)%nat && (n <=? 90)%nat then ascii_of_nat (n + 32) else c.

Fixpoint lower (s : string) : string :=
  match s with
  | EmptyString => EmptyString
  | String c s' => String (lower_ascii c) (lower s')
  end.

(** [s.ljust(n)], as the format spec [{key:20}] pads a string. *)
Definition ljust (n : nat) (s : string) : string :=
  s +:+ str_mul " " (n - String.length s).

(** ** The catalog *)

Record Model := mkModel {
  name : string;
  repo : string;
  local_dir : string;
  git_url : string;
  description : string
}.

(** [MODELS], in the order the dictionary is written. *)
Definition MODELS : list (string * Model) :=
  [ ("cosyvoice2",
     mkModel "CosyVoice2-0.5B" "iic/CosyVoice2-0.5B"
       "pretrained_models/CosyVoice2-0.5B"
       "https://www.modelscope.cn/iic/CosyVoice2-0.5B.git"
       "Latest CosyVoice 2.0 model (Recommended)");
    ("cosyvoice-300m",
     mkModel "CosyVoice-300M" "iic/CosyVoice-300M"
       "pretrained_models/CosyVoice-300M"
       "https://www.modelscope.cn/iic/CosyVoice-300M.git"
       "Base CosyVoice 300M model");
    ("sft",
     mkModel "CosyVoice-300M-SFT" "iic/CosyVoice-300M-SFT"
       "pretrained_models/CosyVoice-300M-SFT"
       "https://www.modelscope.cn/iic/CosyVoice-300M-SFT.git"
       "CosyVoice 300M SFT (Supervised Fine-Tuning) model");
    ("instruct",
     mkModel "CosyVoice-300M-Instruct" "iic/CosyVoice-300M-Instruct"
       "pretrained_models/CosyVoice-300M-Instruct"
       "https://www.modelscope.cn/iic/CosyVoice-300M-Instruct.git"
       "CosyVoice 300M Instruct model");
    ("ttsfrd",
     mkModel "CosyVoice-ttsfrd" "iic/CosyVoice-ttsfrd"
       "pretrained_models/CosyVoice-ttsfrd"
       "https://www.modelscope.cn/iic/CosyVoice-ttsfrd.git"
       "Text normalization resources") ].

(** [MODELS.keys()]. *)
Definition MODELS_keys : list string := map fst MODELS.

Fixpoint assoc {A} (k : string) (l : list (string * A)) : option A :=
  match l with
  | [] => None
  | (k', v) :: l' => if String.eqb k k' then Some v else assoc k l'
  end.

(** [MODELS[model_key]]: [KeyError] on a key that is not in the table. *)
Definition MODELS_getitem (model_key : string) : M Model :=
  match assoc model_key MODELS with
  | Some model => mret model
  | None => raise (Exc KeyError (repr_str model_key))
  end.

Definition rule : string := str_mul "=" 60.

(** ** The script *)

Section Script.

Variable env : Env.

(** [str(e)] of the [CalledProcessError] that [check=True] raises. *)
Definition called_process_error_str (cmd : list string) (returncode : Z)
  : string :=
  if (returncode <? 0)%Z then
    match signal_repr env (- returncode) with
    | Some sig => "Command '" +:+ repr_list cmd +:+ "' died with " +:+ sig +:+ "."
    | None =>
        "Command '" +:+ repr_list cmd +:+ "' died with unknown signal "
        +:+ str_of_Z (- returncode) +:+ "."
    end
  else
    "Command '" +:+ repr_list cmd +:+ "' returned non-zero exit status "
    +:+ str_of_Z returncode +:+ ".".

(** [subprocess.run(cmd, check=check).returncode]. *)
Definition subprocess_run (cmd : list string) (check : bool) : M Z := fun w =>
  let '(r, fs') := spawn env cmd (fs w) in
  let w' := log (EvRun cmd r) (set_fs fs' w) in
  match r with
  | SpawnFailed e => (Raise e, w')
  | Exited returncode =>
      if check && negb (returncode =? 0)%Z then
        (Raise (Exc CalledProcessError
                  (called_process_error_str cmd returncode)), w')
      else (Ok returncode, w')
  end.

(** [from modelscope import snapshot_download]. *)
Definition import_snapshot_download : M unit := fun w =>
  let w' := log (EvImport "modelscope" (import_modelscope env)) w in
  match import_modelscope env with
  | None => (Ok tt, w')
  | Some e => (Raise e, w')
  end.

(** [snapshot_download(repo, local_dir=local_dir)]. *)
Definition snapshot_download (repo local_dir : string) : M unit := fun w =>
  let '(r, fs') := sdk_snapshot_download env repo local_dir (fs w) in
  let w' := log (EvSnapshot repo local_dir r) (set_fs fs' w) in
  match r with
  | None => (Ok tt, w')
  | Some e => (Raise e, w')
  end.

Definition check_git_lfs : M bool :=
  try_except
    (returncode ← subprocess_run ["git"; "lfs"; "version"] false;
     mret (returncode =? 0)%Z)
    (fun e =>
       if isinstance e FileNotFoundError then Some (mret false) else None).

Definition download_via_sdk (model_key : string) : M bool :=
  model ← MODELS_getitem model_key;
  print (nl +:+ rule);;
  print ("Downloading " +:+ name model +:+ " via ModelScope SDK...");;
  print ("Description: " +:+ description model);;
  print (rule +:+ nl);;
  try_except
    (import_snapshot_download;;
     makedirs "pretrained_models";;
     snapshot_download (repo model) (local_dir model);;
     print (nl +:+ "✓ Successfully downloaded " +:+ name model +:+ " to "
            +:+ local_dir model);;
     mret true)
    (fun e =>
       if isinstance e ImportError then
         Some (print (nl +:+ "✗ Error: modelscope package not installed");;
               print "Please install it with: pip install modelscope";;
               mret false)
       else if isinstance e Exception then
         Some (print (nl +:+ "✗ Error downloading " +:+ name model +:+ ": "
                      +:+ exc_str e);;
               mret false)
       else None).

Definition download_via_git (model_key : string) : M bool :=
  model ← MODELS_getitem model_key;
  print (nl +:+ rule);;
  print ("Downloading " +:+ name model +:+ " via git clone...");;
  print ("Description: " +:+ description model);;
  print (rule +:+ nl);;
  has_lfs ← check_git_lfs;
  declined ←
    (if negb has_lfs then
       print "✗ Warning: git-lfs is not installed!";;
       print "Please install git-lfs first:";;
       print "  - Ubuntu/Debian: sudo apt-get install git-lfs";;
       print "  - macOS: brew install git-lfs";;
       print "  - Windows: download from https://git-lfs.github.com/";;
       print (nl +:+ "Then run: git lfs install");;
       response ← input (nl +:+ "Continue anyway? (y/N): ");
       mret (negb (String.eqb (lower response) "y"))
     else mret false);
  if declined : bool then mret false
  else
    try_except
      (makedirs "pretrained_models";;
       let cmd := ["git"; "clone"; git_url model; local_dir model] in
       subprocess_run cmd true;;
       print (nl +:+ "✓ Successfully downloaded " +:+ name model +:+ " to "
              +:+ local_dir model);;
       mret true)
      (fun e =>
         if isinstance e CalledProcessError then
           Some (print (nl +:+ "✗ Error cloning " +:+ name model +:+ ": "
                        +:+ exc_str e);;
                 mret false)
         else if isinstance e FileNotFoundError then
           Some (print (nl +:+ "✗ Error: git is not installed");;
                 mret false)
         else None).

Definition ttsfrd_dir : string := "pretrained_models/CosyVoice-ttsfrd".

(** [p / child] on [Path], as [str] gives it back. *)
Definition path_join (p child : string) : string := p +:+ "/" +:+ child.

Definition resource_zip : string := path_join ttsfrd_dir "resource.zip".

Definition dependency_whl_name : string :=
  "ttsfrd_dependency-0.1-py3-none-any.whl".

Definition ttsfrd_whl_name : string :=
  "ttsfrd-0.4.2-cp310-cp310-linux_x86_64.whl".

Definition dependency_whl : string := path_join ttsfrd_dir dependency_whl_name.

Definition ttsfrd_whl : string := path_join ttsfrd_dir ttsfrd_whl_name.

Definition unzip_cmd : list string :=
  ["unzip"; "-o"; resource_zip; "-d"; ttsfrd_dir].

Definition pip_install_cmd (whl : string) : list string :=
  [sys_executable env; "-m"; "pip"; "install"; whl].

Definition install_ttsfrd : M bool :=
  found ← path_exists ttsfrd_dir;
  if negb found then
    print (nl +:+ "✗ CosyVoice-ttsfrd directory not found. "
           +:+ "Please download it first.");;
    mret false
  else
    print (nl +:+ rule);;
    print "Installing ttsfrd package...";;
    print (rule +:+ nl);;
    has_zip ← path_exists resource_zip;
    if negb has_zip then
      print ("✗ resource.zip not found in " +:+ ttsfrd_dir);;
      mret false
    else
      try_except
        (print "Extracting resource.zip...";;
         subprocess_run unzip_cmd true;;
         has_dependency ← path_exists dependency_whl;
         (if has_dependency : bool then
            print ("Installing " +:+ dependency_whl_name +:+ "...");;
            subprocess_run (pip_install_cmd dependency_whl) true;;
            mret tt
          else mret tt);;
         has_ttsfrd ← path_exists ttsfrd_whl;
         (if has_ttsfrd : bool then
            print ("Installing " +:+ ttsfrd_whl_name +:+ "...");;
            subprocess_run (pip_install_cmd ttsfrd_whl) true;;
            mret tt
          else mret tt);;
         print (nl +:+ "✓ Successfully installed ttsfrd package");;
         print ("Note: ttsfrd is optional. If not installed, "
                +:+ "WeText will be used by default.");;
         mret true)
        (fun e =>
           if isinstance e CalledProcessError then
             Some (print (nl +:+ "✗ Error installing ttsfrd: " +:+ exc_str e);;
                   mret false)
           else if isinstance e FileNotFoundError then
             Some (print (nl +:+ "✗ Error: unzip command not found");;
                   print ("Please install unzip first or manually extract "
                          +:+ "resource.zip");;
                   mret false)
           else None).

(** The loop of [list_models] over [MODELS.items()]. *)
Fixpoint list_models_loop (items : list (string * Model)) : M unit :=
  match items with
  | [] => mret tt
  | (key, model) :: rest =>
      found ← path_exists (local_dir model);
      let status := if found : bool then "✓" else "✗" in
      print (status +:+ " " +:+ ljust 20 key +:+ " - " +:+ description model);;
      list_models_loop rest
  end.

Definition list_models : M unit :=
  print (nl +:+ "Available models:");;
  print rule;;
  list_models_loop MODELS;;
  print rule.

(** What [parser.parse_args()] returns. *)
Record Args := mkArgs {
  args_model : option string;
  args_all : bool;
  args_method : string;
  args_install_ttsfrd : bool;
  args_list : bool
}.

(** The loop [for model_key in models_to_download] of [main], from the
    current value of [success_count] to its last. *)
Fixpoint download_loop (download_func : string -> M bool)
    (models_to_download : list string) (success_count : nat) : M nat :=
  match models_to_download with
  | [] => mret success_count
  | model_key :: rest =>
      succeeded ← download_func model_key;
      download_loop download_func rest
        (if succeeded : bool then S success_count else success_count)
  end.

Definition summary_line (success_count total : nat) : string :=
  "Download Summary: " +:+ str_of_nat success_count +:+ "/"
  +:+ str_of_nat total +:+ " models downloaded successfully".

(** [main] below the point where [models_to_download] is known, block by
    block as its comments divide it: [# Choose download function],
    [# Download models], [# Install ttsfrd if requested], [# Summary]. *)
Definition choose_download_func (method : string) : string -> M bool :=
  if String.eqb method "git" then download_via_git else download_via_sdk.

Definition install_if_requested (install : bool)
    (models_to_download : list string) : M unit :=
  if install && existsb (String.eqb "ttsfrd") models_to_download then
    install_ttsfrd;; mret tt
  else mret tt.

Definition print_summary (success_count total : nat) : M unit :=
  print (nl +:+ rule);;
  print (summary_line success_count total);;
  print (rule +:+ nl);;
  if (0 <? success_count)%nat then
    print "Models are ready to use!";;
    print (nl +:+ "Quick start:");;
    print ("  python webui.py --port 50000 --model_dir "
           +:+ "pretrained_models/CosyVoice2-0.5B");;
    print (nl +:+ "Or check README.md for more usage examples.")
  else mret tt.

Definition main_download (models_to_download : list string)
    (method : string) (install : bool) : M unit :=
  let download_func := choose_download_func method in
  success_count ← download_loop download_func models_to_download 0;
  install_if_requested install models_to_download;;
  print_summary success_count (length models_to_download).

(** Python's truth value of [args.model]: [None] and the empty string are
    false. *)
Definition truthy (o : option string) : bool :=
  match o with
  | Some (String _ _) => true
  | _ => false
  end.

Definition main (args : Args) : M unit :=
  if args_list args then list_models
  else if args_all args then
    main_download MODELS_keys (args_method args) (args_install_ttsfrd args)
  else if truthy (args_model args) then
    main_download (option_list (args_model args))
      (args_method args) (args_install_ttsfrd args)
  else
    print (format_help env);;
    print nl;;
    list_models.

End Script.


(** ** A family of concrete machines

    Environments to run the script in: which tools are installed, which
    destinations cannot be fetched, and how [pip] ends.  A successful clone
    or snapshot leaves the model directory behind (with [resource.zip] in
    it for the ttsfrd model), [unzip -o] writes the two wheels of the
    archive over whatever is there, and [pip] does not touch the tree. *)

Record Machine := mkMachine {
  has_modelscope : bool;
  has_git : bool;
  has_git_lfs : bool;
  has_unzip : bool;
  failing : list string;
  pip_status : Z
}.

Definition populate (dir : string) (fs : gmap string node)
  : gmap string node :=
  let fs' := <[dir := Dir]> fs in
  if String.eqb dir ttsfrd_dir then <[resource_zip := File]> fs' else fs'.

Definition machine_spawn (m : Machine) (exe : string) (cmd : list string)
    (fs : gmap string node) : proc_result * gmap string node :=
  let missing prog :=
    (SpawnFailed (Exc FileNotFoundError
       ("[Errno 2] No such file or directory: " +:+ repr_str prog)), fs) in
  match cmd with
  | [prog; a; b] =>
      if String.eqb prog "git" && String.eqb a "lfs" && String.eqb b "version"
         && has_git m
      then (Exited (if has_git_lfs m then 0 else 1), fs)
      else missing prog
  | [prog; a; url; dir] =>
      if String.eqb prog "git" && String.eqb a "clone" && has_git m then
        if existsb (String.eqb dir) (failing m) then (Exited 128, fs)
        else (Exited 0, populate dir fs)
      else missing prog
  | [prog; a; b; c; d] =>
      if String.eqb prog "unzip" && String.eqb a "-o" && String.eqb c "-d"
         && has_unzip m
      then
        match fs !! b with
        | Some File =>
            (Exited 0,
             <[path_join d ttsfrd_whl_name := File]>
               (<[path_join d dependency_whl_name := File]> fs))
        | _ => (Exited 9, fs)
        end
      else if String.eqb prog exe && String.eqb a "-m" && String.eqb b "pip"
              && String.eqb c "install"
      then (Exited (pip_status m), fs)
      else missing prog
  | prog :: _ => missing prog
  | [] => missing ""
  end.

Definition machine_env (m : Machine) : Env :=
  let exe := "/usr/bin/python3" in
  mkEnv exe "usage: download_model.py [-h]"
    (fun n => if (n =? 9)%Z then Some "<Signals.SIGKILL: 9>" else None)
    (if has_modelscope m then None
     else Some (Exc ModuleNotFoundError "No module named 'modelscope'"))
    (fun repo dir fs =>
       if existsb (String.eqb dir) (failing m) then
         (Some (Exc RuntimeError "Connection refused"), fs)
       else (None, populate dir fs))
    (machine_spawn m exe).

(** Everything installed, every remote operation succeeds. *)
Definition full_machine : Machine := mkMachine true true true true [] 0.

Definition empty_world : World := mkWorld ∅ [] [] [].

(** ** Vocabulary of the properties *)

(** What each transport prints before it starts. *)
Definition sdk_banner (model : Model) : list string :=
  [ nl +:+ rule;
    "Downloading " +:+ name model +:+ " via ModelScope SDK...";
    "Description: " +:+ description model;
    rule +:+ nl ].

Definition git_banner (model : Model) : list string :=
  [ nl +:+ rule;
    "Downloading " +:+ name model +:+ " via git clone...";
    "Description: " +:+ description model;
    rule +:+ nl ].

Definition lfs_warning : list string :=
  [ "✗ Warning: git-lfs is not installed!";
    "Please install git-lfs first:";
    "  - Ubuntu/Debian: sudo apt-get install git-lfs";
    "  - macOS: brew install git-lfs";
    "  - Windows: download from https://git-lfs.github.com/";
    nl +:+ "Then run: git lfs install" ].

Definition lfs_prompt : string := nl +:+ "Continue anyway? (y/N): ".

Definition lfs_probe : list string := ["git"; "lfs"; "version"].

Definition install_banner : list string :=
  [ nl +:+ rule; "Installing ttsfrd package..."; rule +:+ nl ].

Definition sdk_missing_message : list string :=
  [ nl +:+ "✗ Error: modelscope package not installed";
    "Please install it with: pip install modelscope" ].

Definition unzip_missing_message : list string :=
  [ nl +:+ "✗ Error: unzip command not found";
    "Please install unzip first or manually extract resource.zip" ].

Definition not_downloaded_message : string :=
  nl +:+ "✗ CosyVoice-ttsfrd directory not found. Please download it first.".

Definition archive_missing_message : string :=
  "✗ resource.zip not found in pretrained_models/CosyVoice-ttsfrd".

(** [check_git_lfs] answers [False]: the probe exits with a non-zero code,
    or git itself is missing. *)
Definition lfs_absent (r : proc_result) : Prop :=
  match r with
  | Exited returncode => returncode ≠ 0%Z
  | SpawnFailed e => isinstance e FileNotFoundError = true
  end.

(** The outcomes a batch goes through: every identifier the loop of [main]
    hands to [download_func], with the value that call returned. *)
Fixpoint batch_outcomes (download_func : string -> M bool)
    (models_to_download : list string) : M (list (string * bool)) :=
  match models_to_download with
  | [] => mret []
  | model_key :: rest =>
      succeeded ← download_func model_key;
      outcomes ← batch_outcomes download_func rest;
      mret ((model_key, succeeded) :: outcomes)
  end.

Definition succeeded_count (outcomes : list (string * bool)) : nat :=
  length (List.filter snd outcomes).

(** The three lines [print_summary] always prints, and what follows them. *)
Definition summary_block (success_count total : nat) : list string :=
  [ nl +:+ rule; summary_line success_count total; rule +:+ nl ].

Definition quick_start : list string :=
  [ "Models are ready to use!";
    nl +:+ "Quick start:";
    "  python webui.py --port 50000 --model_dir pretrained_models/CosyVoice2-0.5B";
    nl +:+ "Or check README.md for more usage examples." ].

(** The commands run by a stretch of the trace, in order. *)
Definition runs (evs : list event) : list (list string) :=
  omap (fun ev => match ev with EvRun cmd _ => Some cmd | _ => None end) evs.

(** The destination root is not a regular file, so [makedirs] goes
    through. *)
Definition root_ok (fs : gmap string node) : Prop :=
  fs !! "pretrained_models" ≠ Some File.

(** The faults the transports and the post-install step are written for:
    the SDK fails with an [Exception], a command that does not start is a
    missing program, and no command turns the destination root into a
    regular file. *)
Record handled_faults (env : Env) : Prop := {
  import_fault e :
    import_modelscope env = Some e -> isinstance e Exception = true;
  snapshot_fault repo dir fs e fs' :
    sdk_snapshot_download env repo dir fs = (Some e, fs') ->
    isinstance e Exception = true;
  spawn_fault cmd fs e fs' :
    spawn env cmd fs = (SpawnFailed e, fs') ->
    isinstance e FileNotFoundError = true;
  spawn_keeps_root cmd fs :
    root_ok fs -> root_ok (spawn env cmd fs).2
}.


(** Extraction is repeatable: run again on what it left, [unzip -o] ends
    the same way and leaves the same files; and it removes no path. *)
Definition extraction_overwrites (env : Env) : Prop :=
  ∀ fs,
    spawn env unzip_cmd (spawn env unzip_cmd fs).2 = spawn env unzip_cmd fs
    ∧ ∀ p, is_Some (fs !! p) -> is_Some ((spawn env unzip_cmd fs).2 !! p).

(** Package installation leaves the model tree as it is. *)
Definition pip_keeps_tree (env : Env) : Prop :=
  ∀ whl fs, (spawn env (pip_install_cmd env whl) fs).2 = fs.

(** Machines used to exercise the theorems below. *)
Definition no_sdk_machine : Machine :=
  mkMachine false true true true [] 0.

Definition no_lfs_machine : Machine :=
  mkMachine true true false true [] 0.

Definition no_unzip_machine : Machine :=
  mkMachine true true true false [] 0.

Definition failing_pip_machine : Machine :=
  mkMachine true true true true [] 1.

(** Everything works except fetching the SFT model. *)
Definition sft_unreachable_machine : Machine :=
  mkMachine true true true true ["pretrained_models/CosyVoice-300M-SFT"] 0.

Definition sft_model : Model :=
  mkModel "CosyVoice-300M-SFT" "iic/CosyVoice-300M-SFT"
    "pretrained_models/CosyVoice-300M-SFT"
    "https://www.modelscope.cn/iic/CosyVoice-300M-SFT.git"
    "CosyVoice 300M SFT (Supervised Fine-Tuning) model".

(** The ttsfrd model downloaded, its archive not yet extracted. *)
Definition downloaded_fs : gmap string node :=
  <[resource_zip := File]>
    (<[ttsfrd_dir := Dir]> (<["pretrained_models" := Dir]> ∅)).

Definition downloaded_world : World := mkWorld downloaded_fs [] [] [].

(** [--model sft] with the given [--method]. *)
Definition sft_args (method : string) : Args :=
  mkArgs (Some "sft") false method false false.

(** A disk on which [pretrained_models] is a regular file. *)
Definition root_is_a_file : World :=
  mkWorld {["pretrained_models" := File]} [] [] [].

(** ** Vocabulary of the further properties *)

(** The file system once [os.makedirs('pretrained_models', exist_ok=True)]
    has gone through. *)
Definition with_root (fs : gmap string node) : gmap string node :=
  match fs !! "pretrained_models" with
  | None => <["pretrained_models" := Dir]> fs
  | Some _ => fs
  end.

Definition clone_cmd (model : Model) : list string :=
  ["git"; "clone"; git_url model; local_dir model].

Definition downloaded_message (model : Model) : string :=
  nl +:+ "✓ Successfully downloaded " +:+ name model +:+ " to "
  +:+ local_dir model.

(** One line of the listing and the probe behind it. *)
Definition present (fs : gmap string node) (p : string) : bool :=
  match fs !! p with Some _ => true | None => false end.

Definition status_line (fs : gmap string node) (item : string * Model)
  : string :=
  (if present fs (local_dir item.2) then "✓" else "✗")
  +:+ " " +:+ ljust 20 item.1 +:+ " - " +:+ description item.2.

Definition status_probe (fs : gmap string node) (item : string * Model)
  : event :=
  EvExists (local_dir item.2) (present fs (local_dir item.2)).

(** The events a run added to the trace. *)
Definition new_events (w w' : World) : list event :=
  drop (length (trace w)) (trace w').

(** Environments that differ from a machine in one collaborator. *)
Definition with_snapshot_fault (e : exc) (env : Env) : Env :=
  mkEnv (sys_executable env) (format_help env) (signal_repr env)
    (import_modelscope env) (fun _ _ fs => (Some e, fs)) (spawn env).

Definition without_interpreter (env : Env) : Env :=
  mkEnv (sys_executable env) (format_help env) (signal_repr env)
    (import_modelscope env) (sdk_snapshot_download env)
    (fun cmd fs =>
       if existsb (String.eqb "pip") cmd then
         (SpawnFailed (Exc FileNotFoundError
            ("[Errno 2] No such file or directory: "
             +:+ repr_str (sys_executable env))), fs)
       else spawn env cmd fs).

Definition no_git_machine : Machine :=
  mkMachine true false false true [] 0.

Definition ttsfrd_model : Model :=
  mkModel "CosyVoice-ttsfrd" "iic/CosyVoice-ttsfrd"
    "pretrained_models/CosyVoice-ttsfrd"
    "https://www.modelscope.cn/iic/CosyVoice-ttsfrd.git"
    "Text normalization resources".

Definition interrupted_env : Env :=
  with_snapshot_fault (Exc KeyboardInterrupt "") (machine_env full_machine).

(** Every command exits with 0 and writes nothing: the archive holds
    neither wheel. *)
Definition no_wheels_env : Env :=
  mkEnv "/usr/bin/python3" "" (fun _ => None) None
    (fun _ _ fs => (None, fs)) (fun _ fs => (Exited 0, fs)).

(** A command that ran and exited with 0. *)
Definition exited_ok (r : proc_result) : bool :=
  match r with
  | Exited returncode => (returncode =? 0)%Z
  | SpawnFailed _ => false
  end.

(** How a sequence of installs ends. *)
Inductive wheels_end :=
| AllInstalled
| InstallFailed (cmd : list string) (r : proc_result).

(** The installs as the specification words them (section 4.4, steps 2
    and 3), to compare [install_ttsfrd] with: for each expected package
    file, in the order given, if it is present install it, if it is absent
    pass it over; an install that does not exit with 0 ends the sequence.
    The result is what was done (each probe with its answer, each install
    with its result), how the sequence ended, and the files left. *)
Fixpoint install_wheels_spec (env : Env) (whls : list string)
    (fs : gmap string node)
  : list event * wheels_end * gmap string node :=
  match whls with
  | [] => ([], AllInstalled, fs)
  | whl :: rest =>
      if present fs whl then
        let '(r, fs') := spawn env (pip_install_cmd env whl) fs in
        if exited_ok r then
          let '(evs, ending, fs'') := install_wheels_spec env rest fs' in
          (EvExists whl true :: EvRun (pip_install_cmd env whl) r :: evs,
           ending, fs'')
        else
          ([EvExists whl true; EvRun (pip_install_cmd env whl) r],
           InstallFailed (pip_install_cmd env whl) r, fs')
      else
        let '(evs, ending, fs') := install_wheels_spec env rest fs in
        (EvExists whl false :: evs, ending, fs')
  end.

(** * Properties *)

(** ** Running the script symbolically *)

Ltac run_script :=
  unfold mbind, M_bind, mret, M_ret, try_except, raise, print,
    path_exists, import_snapshot_download, log, set_fs; simpl.

(** Case analysis on everything the outside world decides. *)
Ltac crunch :=
  repeat (simpl; match goal with
    | |- context [spawn ?e ?c ?f] =>
        let r := fresh "r" in let fs' := fresh "fs'" in
        destruct (spawn e c f) as [r fs'] eqn:?; destruct r
    | |- context [Z.eqb ?c 0] => destruct (Z.eqb_spec c 0); [subst c|]
    | |- context [@lookup _ _ (gmap _ _) _ ?k ?m] => destruct (m !! k) eqn:?
    | |- context [isinstance ?e ?c] => destruct (isinstance e c) eqn:?
    end).

Lemma isinstance_FileNotFoundError e :
  isinstance e FileNotFoundError = true ->
  exc_cls e = FileNotFoundError.
Proof.
  destruct e as [c s]; destruct c; simpl; first [reflexivity | discriminate].
Qed.

Lemma assoc_Some {A} k (l : list (string * A)) :
  In k (map fst l) -> ∃ v, assoc k l = Some v.
Proof.
  induction l as [|[k' v] l IH]; simpl; [done|].
  intros [-> | Hin].
  - rewrite String.eqb_refl. eauto.
  - destruct (String.eqb k k'); eauto.
Qed.


Lemma pip_install_cmd_inj env whl1 whl2 :
  pip_install_cmd env whl1 = pip_install_cmd env whl2 -> whl1 = whl2.
Proof. unfold pip_install_cmd. intros H. by simplify_eq. Qed.

Lemma wheels_differ : dependency_whl ≠ ttsfrd_whl.
Proof. intros H. vm_compute in H. discriminate. Qed.

(** ** The SDK transport *)

(** C9: when importing the SDK fails, [download_via_sdk] returns [False]
    after the banner and the two lines of the install hint; the import is
    the only thing it tried, so the destination root is not created and
    the file system is the one it started from. *)
Theorem sdk_unavailable_changes_nothing env model_key model e w :
  assoc model_key MODELS = Some model ->
  import_modelscope env = Some e ->
  isinstance e ImportError = true ->
  download_via_sdk env model_key w =
    (Ok false,
     mkWorld (fs w) (stdin w)
       (stdout w ++ sdk_banner model ++ sdk_missing_message)
       (trace w ++ [EvImport "modelscope" (Some e)])).
Proof.
  intros Hk Hi He.
  unfold download_via_sdk, MODELS_getitem. rewrite Hk.
  run_script. rewrite Hi. simpl. rewrite He. simpl.
  rewrite <- !app_assoc. reflexivity.
Qed.

Lemma sdk_unavailable_changes_nothing_witness :
  download_via_sdk (machine_env no_sdk_machine) "sft" empty_world =
    (Ok false,
     mkWorld ∅ [] (sdk_banner sft_model ++ sdk_missing_message)
       [EvImport "modelscope"
          (Some (Exc ModuleNotFoundError "No module named 'modelscope'"))]).
Proof.
  exact (sdk_unavailable_changes_nothing (machine_env no_sdk_machine) "sft"
           sft_model _ empty_world eq_refl eq_refl eq_refl).
Defined.

(** ** The clone transport *)

(** C7: when [check_git_lfs] answers [False] and the operator's answer is
    not [y] or [Y], [download_via_git] returns [False] without raising.
    After the probe and the prompt it does nothing more: no [makedirs], no
    clone, and the file system is the one the probe left. *)
Theorem clone_declined_without_lfs env model_key model w r fs1 response rest :
  assoc model_key MODELS = Some model ->
  spawn env lfs_probe (fs w) = (r, fs1) ->
  lfs_absent r ->
  stdin w = response :: rest ->
  lower response ≠ "y" ->
  download_via_git env model_key w =
    (Ok false,
     mkWorld fs1 rest (stdout w ++ git_banner model ++ lfs_warning)
       (trace w ++ [EvRun lfs_probe r; EvInput lfs_prompt (Some response)])).
Proof.
  intros Hk Hs Hr Hin Hresp.
  unfold download_via_git, MODELS_getitem. rewrite Hk.
  unfold check_git_lfs, subprocess_run, input. run_script.
  fold lfs_probe. rewrite Hs.
  destruct r as [c | e]; simpl in *.
  - destruct (Z.eqb_spec c 0) as [->|_]; [done|]. simpl.
    rewrite Hin. simpl.
    destruct (String.eqb_spec (lower response) "y") as [|_]; [done|]. simpl.
    rewrite <- !app_assoc. reflexivity.
  - rewrite Hr. simpl. rewrite Hin. simpl.
    destruct (String.eqb_spec (lower response) "y") as [|_]; [done|]. simpl.
    rewrite <- !app_assoc. reflexivity.
Qed.

Lemma clone_declined_without_lfs_witness :
  download_via_git (machine_env no_lfs_machine) "sft"
    (mkWorld ∅ ["N"; "y"] [] []) =
    (Ok false,
     mkWorld ∅ ["y"] (git_banner sft_model ++ lfs_warning)
       [EvRun lfs_probe (Exited 1); EvInput lfs_prompt (Some "N")]).
Proof.
  apply (clone_declined_without_lfs (machine_env no_lfs_machine) "sft"
           sft_model (mkWorld ∅ ["N"; "y"] [] []) (Exited 1) ∅ "N" ["y"]).
  - reflexivity.
  - reflexivity.
  - simpl. lia.
  - reflexivity.
  - simpl. discriminate.
Defined.

(** ** The post-install step *)

(** C5: [install_ttsfrd] checks its two preconditions in order and each
    one that fails ends it with a message of its own.  Without the model
    directory it returns [False] after the single probe of the directory,
    the archive not looked at; with the directory but without
    [resource.zip] it returns [False] after the two probes, no command
    run. *)
Theorem install_preconditions_in_order env w :
  (fs w !! ttsfrd_dir = None ->
   install_ttsfrd env w =
     (Ok false,
      mkWorld (fs w) (stdin w) (stdout w ++ [not_downloaded_message])
        (trace w ++ [EvExists ttsfrd_dir false])))
  ∧ (is_Some (fs w !! ttsfrd_dir) ->
     fs w !! resource_zip = None ->
     install_ttsfrd env w =
       (Ok false,
        mkWorld (fs w) (stdin w)
          (stdout w ++ install_banner ++ [archive_missing_message])
          (trace w ++ [EvExists ttsfrd_dir true;
                       EvExists resource_zip false]))).
Proof.
  split.
  - intros Hd. unfold install_ttsfrd. run_script. rewrite Hd. simpl.
    reflexivity.
  - intros [n Hd] Hz. unfold install_ttsfrd. run_script. rewrite Hd. simpl.
    rewrite Hz. simpl. rewrite <- !app_assoc. reflexivity.
Qed.

Lemma install_preconditions_in_order_witness :
  install_ttsfrd (machine_env full_machine) empty_world =
    (Ok false,
     mkWorld ∅ [] [not_downloaded_message] [EvExists ttsfrd_dir false])
  ∧ install_ttsfrd (machine_env full_machine)
      (mkWorld (<[ttsfrd_dir := Dir]> ∅) [] [] []) =
    (Ok false,
     mkWorld (<[ttsfrd_dir := Dir]> ∅) []
       (install_banner ++ [archive_missing_message])
       [EvExists ttsfrd_dir true; EvExists resource_zip false]).
Proof.
  split.
  - apply (proj1 (install_preconditions_in_order (machine_env full_machine)
                    empty_world)).
    reflexivity.
  - refine (proj2 (install_preconditions_in_order (machine_env full_machine)
                     (mkWorld (<[ttsfrd_dir := Dir]> ∅) [] [] [])) _ _).
    + exists Dir. reflexivity.
    + reflexivity.
Defined.

(** C10: with both preconditions met, a missing [unzip] makes
    [install_ttsfrd] return [False] with the two lines of the hint instead
    of raising; and however the extraction fails (missing program, non-zero
    exit, any other fault), the extraction is the last thing the step
    does: no wheel is probed or installed. *)
Theorem unzip_missing_aborts_before_install env w r fs1 :
  is_Some (fs w !! ttsfrd_dir) ->
  is_Some (fs w !! resource_zip) ->
  spawn env unzip_cmd (fs w) = (r, fs1) ->
  (∀ e, r = SpawnFailed e -> isinstance e FileNotFoundError = true ->
     install_ttsfrd env w =
       (Ok false,
        mkWorld fs1 (stdin w)
          (stdout w ++ install_banner ++ ["Extracting resource.zip..."]
             ++ unzip_missing_message)
          (trace w ++ [EvExists ttsfrd_dir true; EvExists resource_zip true;
                       EvRun unzip_cmd r])))
  ∧ (r ≠ Exited 0 ->
     (install_ttsfrd env w).1 ≠ Ok true
     ∧ fs (install_ttsfrd env w).2 = fs1
     ∧ trace (install_ttsfrd env w).2 =
         trace w ++ [EvExists ttsfrd_dir true; EvExists resource_zip true;
                     EvRun unzip_cmd r]).
Proof.
  intros [n Hd] [n' Hz] Hs. split.
  - intros e -> He. apply isinstance_FileNotFoundError in He.
    unfold install_ttsfrd, subprocess_run. run_script. rewrite Hd. simpl.
    rewrite Hz. simpl. rewrite Hs. simpl.
    unfold isinstance. rewrite He. simpl.
    rewrite <- !app_assoc. reflexivity.
  - intros Hr.
    unfold install_ttsfrd, subprocess_run. run_script. rewrite Hd. simpl.
    rewrite Hz. simpl. rewrite Hs.
    destruct r as [c | e]; simpl.
    + destruct (Z.eqb_spec c 0) as [->|_]; [done|]. simpl.
      rewrite <- !app_assoc. done.
    + destruct (isinstance e CalledProcessError); simpl.
      { rewrite <- !app_assoc. done. }
      destruct (isinstance e FileNotFoundError); simpl;
        rewrite <- !app_assoc; done.
Qed.

Lemma unzip_missing_aborts_before_install_witness :
  install_ttsfrd (machine_env no_unzip_machine) downloaded_world =
    (Ok false,
     mkWorld downloaded_fs []
       (install_banner ++ ["Extracting resource.zip..."]
          ++ unzip_missing_message)
       [EvExists ttsfrd_dir true; EvExists resource_zip true;
        EvRun unzip_cmd
          (SpawnFailed
             (Exc FileNotFoundError
                "[Errno 2] No such file or directory: 'unzip'"))]).
Proof.
  refine (proj1 (unzip_missing_aborts_before_install
                   (machine_env no_unzip_machine) downloaded_world
                   (SpawnFailed
                      (Exc FileNotFoundError
                         "[Errno 2] No such file or directory: 'unzip'"))
                   downloaded_fs _ _ _)
            (Exc FileNotFoundError
               "[Errno 2] No such file or directory: 'unzip'")
            eq_refl eq_refl).
  - exists Dir. vm_compute. reflexivity.
  - exists File. vm_compute. reflexivity.
  - reflexivity.
Defined.

(** Case analysis that answers a question of the outside world once: an
    answer already in the context is used again. *)
Ltac crunch_shared :=
  repeat (simpl; match goal with
    | H : spawn ?e ?c ?f = _ |- context [spawn ?e ?c ?f] => rewrite H
    | H : @lookup _ _ (gmap _ _) _ ?k ?m = _
      |- context [@lookup _ _ (gmap _ _) _ ?k ?m] => rewrite H
    | H : isinstance ?e ?c = _ |- context [isinstance ?e ?c] => rewrite H
    | H : Z.eqb ?c 0 = _ |- context [Z.eqb ?c 0] => rewrite H
    | |- context [Z.eqb ?c 0] =>
        let E := fresh "E" in
        destruct (Z.eqb c 0) eqn:E; [apply Z.eqb_eq in E; subst c|]
    | |- context [@lookup _ _ (gmap _ _) _ ?k ?m] => destruct (m !! k) eqn:?
    | |- context [isinstance ?e ?c] => destruct (isinstance e c) eqn:?
    | |- context [spawn ?e ?c ?f] =>
        let r := fresh "r" in let fs' := fresh "fs'" in
        destruct (spawn e c f) as [r fs'] eqn:?; destruct r
    end);
  simpl.

(** C6: with both preconditions met, the extraction is the first command
    [install_ttsfrd] runs, on the files it found.  When the extraction
    exits with 0, what the step does next is exactly the sequence of
    [install_wheels_spec] on the files the extraction left: the dependency
    wheel, then the main wheel, each probed and installed only if it is
    there and passed over if it is not, the first install that does not
    exit with 0 being the last thing done.  The step returns [True] when
    the sequence goes through, and [False] with the install-error message
    when an install exits with another code.  When the extraction does not
    exit with 0 nothing follows it.  The consequences for [evs] that the
    claim names are spelled out at the end: the installs come in their
    order, and a wheel is installed exactly when its probe found it. *)
Theorem install_steps_in_order env w r_unzip fs1 evs ending fs2 :
  is_Some (fs w !! ttsfrd_dir) ->
  is_Some (fs w !! resource_zip) ->
  spawn env unzip_cmd (fs w) = (r_unzip, fs1) ->
  install_wheels_spec env [dependency_whl; ttsfrd_whl] fs1
  = (evs, ending, fs2) ->
  trace (install_ttsfrd env w).2 =
    trace w ++ [EvExists ttsfrd_dir true; EvExists resource_zip true;
                EvRun unzip_cmd r_unzip]
      ++ (if exited_ok r_unzip then evs else [])
  ∧ fs (install_ttsfrd env w).2 = (if exited_ok r_unzip then fs2 else fs1)
  ∧ (exited_ok r_unzip = true ->
     match ending with
     | AllInstalled => (install_ttsfrd env w).1 = Ok true
     | InstallFailed cmd (Exited returncode) =>
         (install_ttsfrd env w).1 = Ok false
         ∧ last evs = Some (EvRun cmd (Exited returncode))
         ∧ last (stdout (install_ttsfrd env w).2) =
             Some (nl +:+ "✗ Error installing ttsfrd: "
                   +:+ called_process_error_str env cmd returncode)
     | InstallFailed cmd (SpawnFailed e) =>
         (install_ttsfrd env w).1 =
           (if isinstance e CalledProcessError
               || isinstance e FileNotFoundError
            then Ok false else Raise e)
         ∧ last evs = Some (EvRun cmd (SpawnFailed e))
     end)
  ∧ (exited_ok r_unzip = false ->
     (install_ttsfrd env w).1 =
       match r_unzip with
       | Exited _ => Ok false
       | SpawnFailed e =>
           if isinstance e CalledProcessError
              || isinstance e FileNotFoundError
           then Ok false else Raise e
       end)
  ∧ runs evs `sublist_of`
      [pip_install_cmd env dependency_whl; pip_install_cmd env ttsfrd_whl]
  ∧ (∀ whl r, In (EvRun (pip_install_cmd env whl) r) evs ->
       In (EvExists whl true) evs)
  ∧ (∀ whl, In (EvExists whl true) evs ->
       ∃ r, In (EvRun (pip_install_cmd env whl) r) evs)
  ∧ (∀ whl r, In (EvExists whl false) evs ->
       ¬ In (EvRun (pip_install_cmd env whl) r) evs).
Proof.
  intros [n Hd] [n' Hz] Hu.
  unfold install_ttsfrd, subprocess_run, install_wheels_spec, present,
    exited_ok.
  run_script. rewrite Hd. simpl. rewrite Hz. simpl. rewrite Hu.
  destruct r_unzip as [cu|eu].
  all: crunch_shared.
  all: intros [= <- <- <-].
  all: split; [rewrite <- ?app_assoc; reflexivity|].
  all: split; [reflexivity|].
  all: split;
    [intros Hok; try discriminate Hok; crunch_shared; rewrite ?last_snoc;
     repeat split; reflexivity|].
  all: split; [intros Hok; try discriminate Hok; reflexivity|].
  all: simpl.
  all: split;
    [solve [repeat first [apply sublist_nil | apply sublist_skip
                         | apply sublist_cons]]|].
  all: repeat split; try intros whl r' Hex Hrun; intros.
  all: repeat match goal with
         | H : _ ∨ _ |- _ => destruct H
         | H : False |- _ => destruct H
         | H : EvRun _ _ = EvRun _ _ |- _ => injection H as ??
         | H : pip_install_cmd _ _ = pip_install_cmd _ _ |- _ =>
             apply pip_install_cmd_inj in H
         | H : dependency_whl = ttsfrd_whl |- _ => destruct (wheels_differ H)
         | H : ttsfrd_whl = dependency_whl |- _ =>
             destruct (wheels_differ (eq_sym H))
         | H : _ = _ |- _ => discriminate H
         | H : EvExists _ _ = EvExists _ _ |- _ => inversion H; clear H
         | _ => progress subst
         end.
  all: try tauto.
  all: try (solve [eexists; simpl; eauto 10]).
Qed.

Lemma install_steps_in_order_witness :
  trace (install_ttsfrd (machine_env failing_pip_machine)
           downloaded_world).2 =
    [EvExists ttsfrd_dir true; EvExists resource_zip true;
     EvRun unzip_cmd (Exited 0);
     EvExists dependency_whl true;
     EvRun (pip_install_cmd (machine_env failing_pip_machine) dependency_whl)
       (Exited 1)]
  ∧ (install_ttsfrd (machine_env failing_pip_machine) downloaded_world).1
    = Ok false.
Proof.
  destruct (install_steps_in_order (machine_env failing_pip_machine)
              downloaded_world (Exited 0)
              (<[ttsfrd_whl := File]>
                 (<[dependency_whl := File]> downloaded_fs))
              [EvExists dependency_whl true;
               EvRun (pip_install_cmd (machine_env failing_pip_machine)
                        dependency_whl) (Exited 1)]
              (InstallFailed
                 (pip_install_cmd (machine_env failing_pip_machine)
                    dependency_whl) (Exited 1))
              (<[ttsfrd_whl := File]>
                 (<[dependency_whl := File]> downloaded_fs)))
    as (Htrace & _ & Hend & _).
  - exists Dir. vm_compute. reflexivity.
  - exists File. vm_compute. reflexivity.
  - reflexivity.
  - reflexivity.
  - split; [exact Htrace | exact (proj1 (Hend eq_refl))].
Defined.

(** ** The batch loop *)

Lemma print_summary_eq success_count total w :
  print_summary success_count total w =
    (Ok tt,
     mkWorld (fs w) (stdin w)
       (stdout w ++ summary_block success_count total
          ++ (if (0 <? success_count)%nat then quick_start else []))
       (trace w)).
Proof.
  unfold print_summary. run_script.
  destruct (0 <? success_count)%nat; simpl; rewrite <- ?app_assoc; reflexivity.
Qed.

Lemma download_loop_outcomes f keys : ∀ n w,
  download_loop f keys n w =
    match batch_outcomes f keys w with
    | (Ok os, w') => (Ok (n + succeeded_count os)%nat, w')
    | (Raise e, w') => (Raise e, w')
    end.
Proof.
  induction keys as [|k keys IH]; intros n w; simpl.
  - unfold mret, M_ret. simpl. f_equal. f_equal. unfold succeeded_count. simpl. lia.
  - unfold mbind, M_bind. destruct (f k w) as [[b|e] w1]; [|reflexivity].
    rewrite IH. destruct (batch_outcomes f keys w1) as [[os|e] w2]; [|reflexivity].
    unfold mret, M_ret. f_equal. f_equal.
    unfold succeeded_count. destruct b; simpl; lia.
Qed.


Lemma batch_outcomes_keys f keys : ∀ w os w',
  batch_outcomes f keys w = (Ok os, w') -> map fst os = keys.
Proof.
  induction keys as [|k keys IH]; intros w os w'; simpl.
  - unfold mret, M_ret. intros [= <- _]. reflexivity.
  - unfold mbind, M_bind. destruct (f k w) as [[b|e] w1]; [|discriminate].
    destruct (batch_outcomes f keys w1) as [[os1|e] w2] eqn:E; [|discriminate].
    unfold mret, M_ret. intros [= <- _]. simpl. f_equal. eauto.
Qed.




(** ** Faults the script is written for *)




Lemma install_ttsfrd_trace_head env w :
  ∃ found tail,
    trace (install_ttsfrd env w).2 = trace w ++ EvExists ttsfrd_dir found :: tail.
Proof.
  unfold install_ttsfrd, subprocess_run. run_script.
  crunch.
  all: rewrite <- ?app_assoc; simpl; eauto.
Qed.





(** The machines of this file only produce faults the script is written
    for. *)
Lemma string_length_app s1 s2 :
  String.length (s1 +:+ s2) = (String.length s1 + String.length s2)%nat.
Proof. induction s1 as [|c s1 IH]; simpl; [done | by rewrite IH]. Qed.

Lemma wheel_path_not_root d whl :
  (17 ≤ String.length whl)%nat -> path_join d whl ≠ "pretrained_models".
Proof.
  intros Hlen Heq. apply (f_equal String.length) in Heq.
  unfold path_join in Heq. rewrite !string_length_app in Heq.
  simpl in Heq. lia.
Qed.

Lemma root_ok_insert fs p n :
  root_ok fs -> (p = "pretrained_models" -> n = Dir) -> root_ok (<[p := n]> fs).
Proof.
  unfold root_ok. intros Hfs Hp.
  destruct (decide (p = "pretrained_models")) as [->|Hne].
  - rewrite lookup_insert_eq, Hp by done. done.
  - by rewrite lookup_insert_ne.
Qed.

Lemma root_ok_populate dir fs : root_ok fs -> root_ok (populate dir fs).
Proof.
  intros Hfs. unfold populate.
  destruct (String.eqb dir ttsfrd_dir).
  - apply root_ok_insert; [apply root_ok_insert; done|].
    intros H. vm_compute in H. discriminate.
  - apply root_ok_insert; done.
Qed.

Lemma machine_env_handled m : handled_faults (machine_env m).
Proof.
  split.
  - simpl. intros e. destruct (has_modelscope m); [done|].
    intros [= <-]. reflexivity.
  - simpl. intros repo dir fs e fs'.
    destruct (existsb _ _); [|done]. intros [= <- _]. reflexivity.
  - simpl. intros cmd fs e fs'. unfold machine_spawn.
    repeat (match goal with
            | |- context [match ?l with [] => _ | _ :: _ => _ end] =>
                destruct l
            | |- context [if ?b then _ else _] => destruct b
            | |- context [match ?o with Some _ => _ | None => _ end] =>
                destruct o as [[|]|]
            end; simpl);
      intros [= <- _]; reflexivity.
  - simpl. intros cmd fs Hfs. unfold machine_spawn.
    repeat (match goal with
            | |- context [match ?l with [] => _ | _ :: _ => _ end] =>
                destruct l
            | |- context [if ?b then _ else _] => destruct b
            | |- context [match ?o with Some _ => _ | None => _ end] =>
                destruct o as [[|]|]
            end; simpl);
      try done; try (by apply root_ok_populate).
    apply root_ok_insert; [apply root_ok_insert; [done|]|];
      intros H; exfalso; revert H; apply wheel_path_not_root;
      vm_compute; lia.
Qed.



(** ** Faults that escape

    C3 does not hold of the clone transport.  When [pretrained_models] is
    a regular file, [os.makedirs] raises [FileExistsError]; the SDK
    transport catches it with [except Exception], prints the error and the
    run goes on to its summary [0/1], but the clone transport only catches
    [CalledProcessError] and [FileNotFoundError], so the same fault leaves
    [main] as an exception and no summary is printed.  The prompt of the
    clone transport is outside its [try] as well: without git-lfs and with
    no input to read, [EOFError] leaves [main] the same way. *)
Theorem clone_fault_escapes_main :
  (main (machine_env full_machine) (sft_args "git") root_is_a_file).1
  = Raise (Exc FileExistsError "[Errno 17] File exists: 'pretrained_models'")
  ∧ ¬ In (summary_line 0 1)
        (stdout (main (machine_env full_machine) (sft_args "git")
                   root_is_a_file).2)
  ∧ (main (machine_env full_machine) (sft_args "sdk") root_is_a_file).1
    = Ok tt
  ∧ In (summary_line 0 1)
      (stdout (main (machine_env full_machine) (sft_args "sdk")
                 root_is_a_file).2)
  ∧ (main (machine_env no_lfs_machine) (sft_args "git") empty_world).1
    = Raise (Exc EOFError "EOF when reading a line").
Proof.
  split; [vm_compute; reflexivity|].
  split.
  { intros H. vm_compute in H.
    repeat (destruct H as [H|H]; [discriminate H|]). exact H. }
  split; [vm_compute; reflexivity|].
  split; [|vm_compute; reflexivity].
  vm_compute. tauto.
Qed.

(** ** The post-install step within a run *)

Lemma requested_ttsfrd install keys :
  install && existsb (String.eqb "ttsfrd") keys = true
  ↔ install = true ∧ In "ttsfrd" keys.
Proof.
  rewrite andb_true_iff, existsb_exists. split.
  - intros [-> (k & Hin & Heq)]. apply String.eqb_eq in Heq. by subst.
  - intros [-> Hin]. split; [done|]. exists "ttsfrd". split; [done|].
    apply String.eqb_refl.
Qed.

Lemma main_download_after_loop env keys method install w n w1 :
  download_loop (choose_download_func env method) keys 0 w = (Ok n, w1) ->
  main_download env keys method install w =
    match install_if_requested env install keys w1 with
    | (Ok _, w2) => print_summary n (length keys) w2
    | (Raise e, w2) => (Raise e, w2)
    end.
Proof.
  intros Hloop. unfold main_download, mbind, M_bind. rewrite Hloop.
  by destruct (install_if_requested env install keys w1) as [[[]|e] w2].
Qed.

(** C4: once the downloads are through, the first thing
    [install_ttsfrd] does, probing the ttsfrd directory, happens exactly
    when [--install-ttsfrd] was given and [ttsfrd] is among the requested
    identifiers, whatever its download returned.  Whether the step then
    returns [True] or [False], the summary shows the count the loop ended
    with; and when the step is not requested the summary follows the
    downloads directly. *)
Theorem post_install_iff_requested env keys method install w n w1 :
  download_loop (choose_download_func env method) keys 0 w = (Ok n, w1) ->
  ((∃ found tail,
      trace (main_download env keys method install w).2
      = trace w1 ++ EvExists ttsfrd_dir found :: tail)
   ↔ install = true ∧ In "ttsfrd" keys)
  ∧ (install = true ∧ In "ttsfrd" keys ->
     ∀ b w2, install_ttsfrd env w1 = (Ok b, w2) ->
       main_download env keys method install w =
         (Ok tt,
          mkWorld (fs w2) (stdin w2)
            (stdout w2 ++ summary_block n (length keys)
               ++ (if (0 <? n)%nat then quick_start else []))
            (trace w2)))
  ∧ (¬ (install = true ∧ In "ttsfrd" keys) ->
     main_download env keys method install w =
       (Ok tt,
        mkWorld (fs w1) (stdin w1)
          (stdout w1 ++ summary_block n (length keys)
             ++ (if (0 <? n)%nat then quick_start else []))
          (trace w1))).
Proof.
  intros Hloop. rewrite (main_download_after_loop _ _ _ _ _ _ _ Hloop).
  unfold install_if_requested.
  destruct (install && existsb (String.eqb "ttsfrd") keys) eqn:Hreq.
  - apply requested_ttsfrd in Hreq.
    unfold mbind, M_bind, mret, M_ret.
    split; [|split; [|tauto]].
    + split; [done|]. intros _.
      destruct (install_ttsfrd_trace_head env w1) as (found & tail & Ht).
      exists found, tail. rewrite <- Ht.
      destruct (install_ttsfrd env w1) as [[b|e] w2]; [|reflexivity].
      by rewrite print_summary_eq.
    + intros _ b w2 Hb. by rewrite Hb, print_summary_eq.
  - assert (¬ (install = true ∧ In "ttsfrd" keys)) as Hno.
    { rewrite <- requested_ttsfrd, Hreq. done. }
    unfold mret, M_ret. rewrite print_summary_eq.
    split; [|split; [tauto|done]].
    split; [|tauto]. simpl. intros (found & tail & Ht).
    apply (f_equal length) in Ht. rewrite length_app in Ht. simpl in Ht. lia.
Qed.

Lemma post_install_iff_requested_witness :
  ∃ found tail,
    trace (main_download (machine_env full_machine) ["ttsfrd"] "sdk" true
             empty_world).2
    = trace (download_loop
               (choose_download_func (machine_env full_machine) "sdk")
               ["ttsfrd"] 0 empty_world).2
      ++ EvExists ttsfrd_dir found :: tail.
Proof.
  refine (proj2 (proj1 (post_install_iff_requested
                          (machine_env full_machine) ["ttsfrd"] "sdk" true
                          empty_world 1 _ _))
            (conj eq_refl (or_introl eq_refl))).
  vm_compute. reflexivity.
Defined.

(** ** Running the post-install step again *)

Lemma install_ttsfrd_follows_unzip env w w0 :
  is_Some (fs w !! ttsfrd_dir) -> is_Some (fs w !! resource_zip) ->
  is_Some (fs w0 !! ttsfrd_dir) -> is_Some (fs w0 !! resource_zip) ->
  spawn env unzip_cmd (fs w0) = spawn env unzip_cmd (fs w) ->
  (install_ttsfrd env w0).1 = (install_ttsfrd env w).1
  ∧ fs (install_ttsfrd env w0).2 = fs (install_ttsfrd env w).2.
Proof.
  intros [n Hd] [n' Hz] [m Hd0] [m' Hz0] Hu.
  unfold install_ttsfrd, subprocess_run. run_script.
  rewrite Hd, Hd0. simpl. rewrite Hz, Hz0. simpl. rewrite Hu.
  crunch.
  all: split; reflexivity.
Qed.

Lemma install_ttsfrd_leaves_extraction env w :
  pip_keeps_tree env ->
  is_Some (fs w !! ttsfrd_dir) -> is_Some (fs w !! resource_zip) ->
  fs (install_ttsfrd env w).2 = (spawn env unzip_cmd (fs w)).2.
Proof.
  intros Hp [n Hd] [n' Hz].
  unfold install_ttsfrd, subprocess_run. run_script.
  rewrite Hd. simpl. rewrite Hz. simpl.
  crunch.
  all: repeat match goal with
         | E : spawn ?e (pip_install_cmd ?e ?whl) ?f = (_, ?f') |- _ =>
             let X := fresh in
             pose proof (Hp whl f) as X; rewrite E in X; simpl in X;
             subst f'; clear E
         end.
  all: reflexivity.
Qed.

(** C8: with the model directory and the archive present, extraction
    repeatable and [pip] leaving the tree alone, running [install_ttsfrd]
    a second time right after the first returns what the first returned
    (the same boolean, or the same exception) and leaves the files the
    first left. *)
Theorem install_ttsfrd_idempotent env w :
  extraction_overwrites env -> pip_keeps_tree env ->
  is_Some (fs w !! ttsfrd_dir) -> is_Some (fs w !! resource_zip) ->
  (install_ttsfrd env (install_ttsfrd env w).2).1 = (install_ttsfrd env w).1
  ∧ fs (install_ttsfrd env (install_ttsfrd env w).2).2
    = fs (install_ttsfrd env w).2.
Proof.
  intros Hx Hp Hd Hz.
  pose proof (install_ttsfrd_leaves_extraction env w Hp Hd Hz) as Hfs.
  destruct (Hx (fs w)) as [Hidem Hkeep].
  apply install_ttsfrd_follows_unzip; try done.
  - rewrite Hfs. by apply Hkeep.
  - rewrite Hfs. by apply Hkeep.
  - by rewrite Hfs.
Qed.

Lemma machine_pip_keeps_tree m : pip_keeps_tree (machine_env m).
Proof. intros whl fs. reflexivity. Qed.

Lemma machine_unzip m fs :
  spawn (machine_env m) unzip_cmd fs =
    if has_unzip m then
      match fs !! resource_zip with
      | Some File =>
          (Exited 0, <[ttsfrd_whl := File]> (<[dependency_whl := File]> fs))
      | _ => (Exited 9, fs)
      end
    else
      (SpawnFailed (Exc FileNotFoundError
         "[Errno 2] No such file or directory: 'unzip'"), fs).
Proof. simpl. unfold machine_spawn. simpl. by destruct (has_unzip m). Qed.

Lemma machine_extraction_overwrites m : extraction_overwrites (machine_env m).
Proof.
  intros fs. rewrite !machine_unzip.
  destruct (has_unzip m); [|by split].
  destruct (fs !! resource_zip) as [[|]|] eqn:Ez; cbn [snd]; rewrite ?Ez;
    try (by split).
  assert (resource_zip ≠ dependency_whl) as Hzd
    by (intros H; vm_compute in H; discriminate).
  assert (resource_zip ≠ ttsfrd_whl) as Hzt
    by (intros H; vm_compute in H; discriminate).
  split.
  - cbn [snd]. rewrite !lookup_insert_ne, Ez by done. f_equal.
    apply map_eq. intros k. rewrite !lookup_insert.
    repeat case_decide; done.
  - cbn [snd]. intros p Hp. rewrite !lookup_insert.
    repeat case_decide; eauto.
Qed.

Lemma install_ttsfrd_idempotent_witness :
  (install_ttsfrd (machine_env full_machine)
     (install_ttsfrd (machine_env full_machine) downloaded_world).2).1
  = (install_ttsfrd (machine_env full_machine) downloaded_world).1
  ∧ fs (install_ttsfrd (machine_env full_machine)
          (install_ttsfrd (machine_env full_machine) downloaded_world).2).2
    = fs (install_ttsfrd (machine_env full_machine) downloaded_world).2.
Proof.
  apply (install_ttsfrd_idempotent (machine_env full_machine) downloaded_world
           (machine_extraction_overwrites full_machine)
           (machine_pip_keeps_tree full_machine)).
  - exists Dir. vm_compute. reflexivity.
  - exists File. vm_compute. reflexivity.
Defined.


(** * Further properties of the script *)

(** ** [check_git_lfs] and the two transports *)

(** X1: [check_git_lfs] answers [True] exactly when the probe
    [git lfs version] exits with 0.  A missing git ([FileNotFoundError])
    is the answer [False], not an exception; any other fault of the spawn
    goes on up.  The probe is all it does: nothing printed, nothing
    read. *)
Theorem check_git_lfs_answers env w :
  check_git_lfs env w =
    (match (spawn env lfs_probe (fs w)).1 with
     | Exited returncode => Ok (returncode =? 0)%Z
     | SpawnFailed e =>
         if isinstance e FileNotFoundError then Ok false else Raise e
     end,
     mkWorld (spawn env lfs_probe (fs w)).2 (stdin w) (stdout w)
       (trace w ++ [EvRun lfs_probe (spawn env lfs_probe (fs w)).1])).
Proof.
  unfold check_git_lfs, subprocess_run. run_script. fold lfs_probe.
  destruct (spawn env lfs_probe (fs w)) as [[c|e] fs1]; simpl; [done|].
  by destruct (isinstance e FileNotFoundError).
Qed.

Lemma with_root_makedirs w :
  root_ok (fs w) ->
  makedirs "pretrained_models" w =
    (Ok tt, mkWorld (with_root (fs w)) (stdin w) (stdout w)
              (trace w ++ [EvMakedirs "pretrained_models" true])).
Proof.
  unfold root_ok, makedirs, with_root, log, set_fs. intros Hroot.
  destruct (fs w !! "pretrained_models") as [[|]|]; simpl; done.
Qed.

(** X2: with the SDK importable, a usable destination root and a
    snapshot that goes through, [download_via_sdk] returns [True] after
    the banner and the success line, having imported, made the root and
    called the SDK once, in that order. *)
Theorem sdk_fetch_succeeds env model_key model w fs1 :
  assoc model_key MODELS = Some model ->
  import_modelscope env = None ->
  root_ok (fs w) ->
  sdk_snapshot_download env (repo model) (local_dir model) (with_root (fs w))
  = (None, fs1) ->
  download_via_sdk env model_key w =
    (Ok true,
     mkWorld fs1 (stdin w)
       (stdout w ++ sdk_banner model ++ [downloaded_message model])
       (trace w ++ [EvImport "modelscope" None;
                    EvMakedirs "pretrained_models" true;
                    EvSnapshot (repo model) (local_dir model) None])).
Proof.
  intros Hk Hi Hroot Hs.
  unfold download_via_sdk, MODELS_getitem. rewrite Hk.
  unfold snapshot_download. run_script. rewrite Hi. simpl.
  rewrite with_root_makedirs by done. simpl. rewrite Hs. simpl.
  rewrite <- !app_assoc. reflexivity.
Qed.

(** X3: a fault raised by [snapshot_download] itself is reported and
    becomes [False], after the root has been made and a single attempt.
    The line printed carries [str(e)], except that an [ImportError] from
    inside the SDK gets the hint for a package that is not installed: the
    [except ImportError] clause covers the whole [try] body. *)
Theorem sdk_transfer_failure_reported env model_key model w e fs1 :
  assoc model_key MODELS = Some model ->
  import_modelscope env = None ->
  root_ok (fs w) ->
  sdk_snapshot_download env (repo model) (local_dir model) (with_root (fs w))
  = (Some e, fs1) ->
  isinstance e Exception = true ->
  download_via_sdk env model_key w =
    (Ok false,
     mkWorld fs1 (stdin w)
       (stdout w ++ sdk_banner model
          ++ (if isinstance e ImportError then sdk_missing_message
              else [nl +:+ "✗ Error downloading " +:+ name model +:+ ": "
                    +:+ exc_str e]))
       (trace w ++ [EvImport "modelscope" None;
                    EvMakedirs "pretrained_models" true;
                    EvSnapshot (repo model) (local_dir model) (Some e)])).
Proof.
  intros Hk Hi Hroot Hs He.
  unfold download_via_sdk, MODELS_getitem. rewrite Hk.
  unfold snapshot_download. run_script. rewrite Hi. simpl.
  rewrite with_root_makedirs by done. simpl. rewrite Hs. simpl.
  destruct (isinstance e ImportError); simpl.
  - rewrite <- !app_assoc. reflexivity.
  - rewrite He. simpl. rewrite <- !app_assoc. reflexivity.
Qed.

Lemma isinstance_ImportError_Exception e :
  isinstance e ImportError = true -> isinstance e Exception = true.
Proof. destruct e as [c s]; destruct c; simpl; done. Qed.

(** X4: as long as the SDK only fails with instances of [Exception],
    [download_via_sdk] of a catalog identifier always returns a boolean,
    whatever the disk looks like, and never reads from the operator. *)
Theorem sdk_catches_every_exception env model_key w :
  In model_key MODELS_keys ->
  (∀ e, import_modelscope env = Some e -> isinstance e Exception = true) ->
  (∀ rp dir fs0 e fs',
     sdk_snapshot_download env rp dir fs0 = (Some e, fs') ->
     isinstance e Exception = true) ->
  ∃ b w', download_via_sdk env model_key w = (Ok b, w')
          ∧ stdin w' = stdin w.
Proof.
  intros Hk Himp Hsnap. destruct (assoc_Some _ _ Hk) as [model Hm].
  unfold download_via_sdk, MODELS_getitem. rewrite Hm.
  unfold snapshot_download, makedirs. run_script.
  destruct (import_modelscope env) as [e|] eqn:Ei; simpl.
  { pose proof (Himp _ eq_refl) as He.
    destruct (isinstance e ImportError); simpl; [eauto|].
    rewrite He. simpl. eauto. }
  destruct (fs w !! "pretrained_models") as [[|]|] eqn:Er; simpl; [eauto| |].
  all: destruct (sdk_snapshot_download env (repo model) (local_dir model) _)
         as [[e|] fs1] eqn:Es; simpl; [|eauto].
  all: pose proof (Hsnap _ _ _ _ _ Es) as He.
  all: destruct (isinstance e ImportError); simpl; [eauto|].
  all: rewrite He; simpl; eauto.
Qed.

(** X5: what is not an [Exception] is not swallowed: a
    [KeyboardInterrupt] out of [snapshot_download] leaves
    [download_via_sdk] as it is, with no error line printed. *)
Theorem sdk_lets_interrupt_through env model_key model w e fs1 :
  assoc model_key MODELS = Some model ->
  import_modelscope env = None ->
  root_ok (fs w) ->
  sdk_snapshot_download env (repo model) (local_dir model) (with_root (fs w))
  = (Some e, fs1) ->
  isinstance e Exception = false ->
  download_via_sdk env model_key w =
    (Raise e,
     mkWorld fs1 (stdin w) (stdout w ++ sdk_banner model)
       (trace w ++ [EvImport "modelscope" None;
                    EvMakedirs "pretrained_models" true;
                    EvSnapshot (repo model) (local_dir model) (Some e)])).
Proof.
  intros Hk Hi Hroot Hs He.
  assert (isinstance e ImportError = false) as Hie.
  { destruct (isinstance e ImportError) eqn:E; [|done].
    apply isinstance_ImportError_Exception in E. congruence. }
  unfold download_via_sdk, MODELS_getitem. rewrite Hk.
  unfold snapshot_download. run_script. rewrite Hi. simpl.
  rewrite with_root_makedirs by done. simpl. rewrite Hs. simpl.
  rewrite Hie, He. simpl. rewrite <- !app_assoc. reflexivity.
Qed.

(** X6: with git-lfs present the clone transport asks nothing: it
    probes, makes the root, clones once and, when the clone exits with 0,
    returns [True] after the success line, the operator's input left
    unread. *)
Theorem clone_fetch_succeeds env model_key model w fs0 fs1 :
  assoc model_key MODELS = Some model ->
  spawn env lfs_probe (fs w) = (Exited 0, fs0) ->
  root_ok fs0 ->
  spawn env (clone_cmd model) (with_root fs0) = (Exited 0, fs1) ->
  download_via_git env model_key w =
    (Ok true,
     mkWorld fs1 (stdin w)
       (stdout w ++ git_banner model ++ [downloaded_message model])
       (trace w ++ [EvRun lfs_probe (Exited 0);
                    EvMakedirs "pretrained_models" true;
                    EvRun (clone_cmd model) (Exited 0)])).
Proof.
  intros Hk Hp Hroot Hc.
  unfold download_via_git, MODELS_getitem. rewrite Hk.
  unfold check_git_lfs, subprocess_run. run_script. fold lfs_probe.
  rewrite Hp. simpl.
  pose proof (with_root_makedirs
                (mkWorld fs0 (stdin w)
                   (stdout w ++ [nl +:+ rule]
                      ++ ["Downloading " +:+ name model +:+ " via git clone..."]
                      ++ ["Description: " +:+ description model]
                      ++ [rule +:+ nl])
                   (trace w ++ [EvRun lfs_probe (Exited 0)])) Hroot) as Hm.
  simpl in Hm. rewrite <- !app_assoc. simpl. rewrite Hm. simpl.
  fold (clone_cmd model). rewrite Hc. simpl.
  rewrite <- !app_assoc. reflexivity.
Qed.

Ltac enter_clone Hk Hp :=
  unfold download_via_git, MODELS_getitem; rewrite Hk;
  unfold check_git_lfs, subprocess_run, input, makedirs; run_script;
  fold lfs_probe; rewrite Hp; simpl.


(** X8: without git at all the probe fails, the operator is asked, and
    after the answer [y] the clone cannot start either: the transport
    returns [False] with the line that git is not installed, having made
    the root directory all the same. *)
Theorem missing_git_reported env model_key model w e0 fs0 response rest e fs1 :
  assoc model_key MODELS = Some model ->
  spawn env lfs_probe (fs w) = (SpawnFailed e0, fs0) ->
  isinstance e0 FileNotFoundError = true ->
  stdin w = response :: rest ->
  lower response = "y" ->
  root_ok fs0 ->
  spawn env (clone_cmd model) (with_root fs0) = (SpawnFailed e, fs1) ->
  isinstance e FileNotFoundError = true ->
  download_via_git env model_key w =
    (Ok false,
     mkWorld fs1 rest
       (stdout w ++ git_banner model ++ lfs_warning
          ++ [nl +:+ "✗ Error: git is not installed"])
       (trace w ++ [EvRun lfs_probe (SpawnFailed e0);
                    EvInput lfs_prompt (Some response);
                    EvMakedirs "pretrained_models" true;
                    EvRun (clone_cmd model) (SpawnFailed e)])).
Proof.
  intros Hk Hp He0 Hin Hy Hroot Hc He.
  assert (isinstance e CalledProcessError = false) as Hcpe.
  { apply isinstance_FileNotFoundError in He. unfold isinstance.
    by rewrite He. }
  enter_clone Hk Hp. rewrite He0. simpl. rewrite Hin. simpl.
  rewrite Hy. simpl.
  unfold with_root in Hc.
  destruct (fs0 !! "pretrained_models") as [[|]|] eqn:Er; [done| |];
    simpl; fold (clone_cmd model); rewrite Hc; simpl;
    rewrite Hcpe, He; simpl; rewrite <- !app_assoc; reflexivity.
Qed.

Lemma lower_is_y s : lower s = "y" ↔ s = "y" ∨ s = "Y".
Proof.
  split.
  - destruct s as [|c [|c' s']]; simpl; try discriminate.
    intros [= H].
    destruct c as [[] [] [] [] [] [] [] []]; vm_compute in H;
      try discriminate; auto.
  - intros [-> | ->]; reflexivity.
Qed.

(** X9: at the prompt only the single letter [y], in either case, lets
    the clone transport go on to make the root; every other answer,
    [yes] included, stops it. *)
Theorem clone_goes_on_only_after_y env model_key model w r fs0 response rest :
  assoc model_key MODELS = Some model ->
  spawn env lfs_probe (fs w) = (r, fs0) ->
  lfs_absent r ->
  stdin w = response :: rest ->
  (∃ ok, In (EvMakedirs "pretrained_models" ok)
           (new_events w (download_via_git env model_key w).2))
  ↔ response = "y" ∨ response = "Y".
Proof.
  intros Hk Hp Hr Hin. rewrite <- lower_is_y. unfold new_events.
  enter_clone Hk Hp.
  assert (∀ (evs : list event), drop (length (trace w)) (trace w ++ evs) = evs)
    as Hdrop by (intros; by rewrite drop_app_length).
  destruct r as [c|e0]; simpl in Hr.
  - destruct (Z.eqb_spec c 0); [done|]. simpl. rewrite Hin. simpl.
    destruct (String.eqb_spec (lower response) "y") as [Hy|Hy]; simpl.
    + split; [done|]. intros _.
      repeat (crunch;
              try match goal with
                  | |- context [match ?n with File => _ | Dir => _ end] =>
                      destruct n
                  end);
        rewrite <- ?app_assoc; simpl; rewrite Hdrop; simpl; eauto 10.
    + split; [|done]. intros [ok Hok]. exfalso. revert Hok.
      rewrite <- ?app_assoc. simpl. rewrite Hdrop. simpl.
      intros [H|[H|[]]]; discriminate.
  - rewrite Hr. simpl. rewrite Hin. simpl.
    destruct (String.eqb_spec (lower response) "y") as [Hy|Hy]; simpl.
    + split; [done|]. intros _.
      repeat (crunch;
              try match goal with
                  | |- context [match ?n with File => _ | Dir => _ end] =>
                      destruct n
                  end);
        rewrite <- ?app_assoc; simpl; rewrite Hdrop; simpl; eauto 10.
    + split; [|done]. intros [ok Hok]. exfalso. revert Hok.
      rewrite <- ?app_assoc. simpl. rewrite Hdrop. simpl.
      intros [H|[H|[]]]; discriminate.
Qed.

Lemma clone_stdin env model_key w r w' :
  download_via_git env model_key w = (r, w') ->
  (stdin w' = stdin w ∨ ∃ line, stdin w = line :: stdin w')
  ∧ ((spawn env lfs_probe (fs w)).1 = Exited 0 -> stdin w' = stdin w).
Proof.
  unfold download_via_git, MODELS_getitem.
  destruct (assoc model_key MODELS) as [model|];
    [|intros [= <- <-]; by split; [left|]].
  unfold check_git_lfs, subprocess_run, input, makedirs. run_script.
  fold lfs_probe.
  destruct (spawn env lfs_probe (fs w)) as [[c|e0] fs0] eqn:Hp; simpl.
  - destruct (Z.eqb_spec c 0) as [->|Hc]; simpl.
    + repeat (crunch;
              try match goal with
                  | |- context [match ?n with File => _ | Dir => _ end] =>
                      destruct n
                  end);
        intros [= <- <-]; simpl; by split; [left|].
    + destruct (stdin w) as [|line rest]; simpl;
        [intros [= <- <-]; simpl; split; [by left|intros [= ?]; done]|].
      destruct (String.eqb (lower line) "y"); simpl;
        repeat (crunch;
                try match goal with
                    | |- context [match ?n with File => _ | Dir => _ end] =>
                        destruct n
                    end);
        intros [= <- <-]; simpl; (split; [right; eauto|intros [= ?]; done]).
  - destruct (isinstance e0 FileNotFoundError); simpl;
      [|intros [= <- <-]; simpl; split; [by left|intros [= ?]]].
    destruct (stdin w) as [|line rest]; simpl;
      [intros [= <- <-]; simpl; split; [by left|intros [= ?]]|].
    destruct (String.eqb (lower line) "y"); simpl;
      repeat (crunch;
              try match goal with
                  | |- context [match ?n with File => _ | Dir => _ end] =>
                      destruct n
                  end);
      intros [= <- <-]; simpl; (split; [right; eauto|intros [= ?]]).
Qed.

(** X10: one fetch over the clone transport reads at most one line from
    the operator, and none when the probe for git-lfs exits with 0. *)
Theorem clone_reads_at_most_one_line env model_key w :
  (stdin (download_via_git env model_key w).2 = stdin w
   ∨ ∃ line, stdin w = line :: stdin (download_via_git env model_key w).2)
  ∧ ((spawn env lfs_probe (fs w)).1 = Exited 0 ->
     stdin (download_via_git env model_key w).2 = stdin w).
Proof.
  destruct (download_via_git env model_key w) as [r w'] eqn:E.
  exact (clone_stdin env model_key w r w' E).
Qed.

Lemma list_models_loop_lines items : ∀ w,
  list_models_loop items w =
    (Ok tt,
     mkWorld (fs w) (stdin w)
       (stdout w ++ map (status_line (fs w)) items)
       (trace w ++ map (status_probe (fs w)) items)).
Proof.
  induction items as [|[key model] items IH]; intros w; simpl.
  - unfold mret, M_ret. rewrite !app_nil_r. by destruct w.
  - run_script. rewrite IH. simpl.
    rewrite <- !app_assoc. reflexivity.
Qed.

Lemma list_models_eq w :
  list_models w =
    (Ok tt,
     mkWorld (fs w) (stdin w)
       (stdout w ++ [nl +:+ "Available models:"; rule]
          ++ map (status_line (fs w)) MODELS ++ [rule])
       (trace w ++ map (status_probe (fs w)) MODELS)).
Proof.
  unfold list_models. unfold mbind, M_bind, print. cbn [fst snd].
  rewrite list_models_loop_lines. cbn [fs stdin stdout trace].
  rewrite <- !app_assoc. reflexivity.
Qed.

(** X11: [list_models] only looks: it probes the destination of every
    catalog entry, in catalog order, and prints one line per entry between
    the heading and the closing rule, marked [✓] exactly when the
    destination exists.  The disk and the input are as they were and no
    command is run. *)
Theorem list_models_only_looks w :
  list_models w =
    (Ok tt,
     mkWorld (fs w) (stdin w)
       (stdout w ++ [nl +:+ "Available models:"; rule]
          ++ map (status_line (fs w)) MODELS ++ [rule])
       (trace w ++ map (status_probe (fs w)) MODELS)).
Proof. apply list_models_eq. Qed.

(** ** [main], the loop and the post-install step *)

(** X12: with [--list], or with neither [--all] nor [--model], [main]
    downloads nothing: it prints the listing (after the help text when
    nothing was selected) and touches the outside world only through the
    probes of the listing.  [--list] wins over [--all] and [--model]. *)
Theorem main_without_selection_only_lists env args w :
  args_list args = true
  ∨ (args_all args = false ∧ truthy (args_model args) = false) ->
  main env args w =
    (Ok tt,
     mkWorld (fs w) (stdin w)
       (stdout w
          ++ (if args_list args then [] else [format_help env; nl])
          ++ [nl +:+ "Available models:"; rule]
          ++ map (status_line (fs w)) MODELS ++ [rule])
       (trace w ++ map (status_probe (fs w)) MODELS)).
Proof.
  intros Hsel. unfold main.
  destruct (args_list args).
  - apply list_models_eq.
  - destruct Hsel as [|[-> ->]]; [done|].
    unfold mbind, M_bind, print. cbn [fst snd].
    rewrite list_models_eq. cbn [fs stdin stdout trace].
    rewrite <- !app_assoc. reflexivity.
Qed.

Lemma succeeded_count_le os : (succeeded_count os ≤ length os)%nat.
Proof.
  unfold succeeded_count. induction os as [|[k []] os IH]; simpl; lia.
Qed.

(** X13: the loop of [main] ends with a count that is at least the
    count it started with and exceeds it by at most the number of
    identifiers: the summary never shows more successes than models
    requested. *)
Theorem success_count_within_batch f keys n0 w n w' :
  download_loop f keys n0 w = (Ok n, w') ->
  (n0 ≤ n ∧ n ≤ n0 + length keys)%nat.
Proof.
  rewrite download_loop_outcomes.
  destruct (batch_outcomes f keys w) as [[os|e] w1] eqn:E; [|discriminate].
  intros [= <- _]. pose proof (succeeded_count_le os) as Hle.
  apply batch_outcomes_keys in E. apply (f_equal length) in E.
  rewrite length_map in E. lia.
Qed.

(** X14: [except FileNotFoundError] in [install_ttsfrd] covers the
    installs too: when the extraction went through and it is the
    interpreter running [pip] that cannot be started, the step returns
    [False] with the hint that [unzip] is missing. *)
Theorem missing_interpreter_blamed_on_unzip env w fs1 n e fs2 :
  is_Some (fs w !! ttsfrd_dir) ->
  is_Some (fs w !! resource_zip) ->
  spawn env unzip_cmd (fs w) = (Exited 0, fs1) ->
  fs1 !! dependency_whl = Some n ->
  spawn env (pip_install_cmd env dependency_whl) fs1 = (SpawnFailed e, fs2) ->
  isinstance e FileNotFoundError = true ->
  install_ttsfrd env w =
    (Ok false,
     mkWorld fs2 (stdin w)
       (stdout w ++ install_banner
          ++ ["Extracting resource.zip...";
              "Installing " +:+ dependency_whl_name +:+ "..."]
          ++ unzip_missing_message)
       (trace w ++ [EvExists ttsfrd_dir true; EvExists resource_zip true;
                    EvRun unzip_cmd (Exited 0);
                    EvExists dependency_whl true;
                    EvRun (pip_install_cmd env dependency_whl)
                      (SpawnFailed e)])).
Proof.
  intros [m Hd] [m' Hz] Hu Hw Hp He.
  assert (isinstance e CalledProcessError = false) as Hcpe.
  { apply isinstance_FileNotFoundError in He. unfold isinstance.
    by rewrite He. }
  unfold install_ttsfrd, subprocess_run. run_script.
  rewrite Hd. simpl. rewrite Hz. simpl. rewrite Hu. simpl.
  rewrite Hw. simpl. rewrite Hp. simpl. rewrite Hcpe, He. simpl.
  rewrite <- !app_assoc. reflexivity.
Qed.

Lemma install_finds_directory env w :
  is_Some (fs w !! ttsfrd_dir) ->
  ∃ tail,
    trace (install_ttsfrd env w).2
    = trace w ++ EvExists ttsfrd_dir true :: tail.
Proof.
  intros [n Hd].
  unfold install_ttsfrd, subprocess_run. run_script. rewrite Hd. simpl.
  crunch.
  all: rewrite <- ?app_assoc; simpl; eauto.
Qed.

(** X15: the directory [install_ttsfrd] looks in is the destination of
    the [ttsfrd] catalog entry: when the tools create what they fetch, a
    fetch of [ttsfrd] that returned [True], over either transport, is
    followed by a post-install step whose first probe finds the
    directory. *)
Theorem fetched_ttsfrd_is_found_by_install env method w w' :
  (∀ rp dir fs0 fs',
     sdk_snapshot_download env rp dir fs0 = (None, fs') ->
     is_Some (fs' !! dir)) ->
  (∀ fs0 fs',
     spawn env (clone_cmd ttsfrd_model) fs0 = (Exited 0, fs') ->
     is_Some (fs' !! local_dir ttsfrd_model)) ->
  choose_download_func env method "ttsfrd" w = (Ok true, w') ->
  ∃ tail,
    trace (install_ttsfrd env w').2
    = trace w' ++ EvExists ttsfrd_dir true :: tail.
Proof.
  intros Hsdk Hgit Hok. apply install_finds_directory.
  revert Hok. unfold choose_download_func.
  destruct (String.eqb method "git").
  - unfold download_via_git, MODELS_getitem.
    change (assoc "ttsfrd" MODELS) with (Some ttsfrd_model).
    unfold check_git_lfs, subprocess_run, input, makedirs. run_script.
    fold (clone_cmd ttsfrd_model).
    repeat (simpl;
      match goal with
      | |- context [spawn env (clone_cmd ttsfrd_model) ?f] =>
          let E := fresh "E" in
          let r := fresh "r" in let fs' := fresh "fs'" in
          destruct (spawn env (clone_cmd ttsfrd_model) f) as [r fs'] eqn:E;
          destruct r
      | |- context [spawn ?e ?c ?f] =>
          let r := fresh "r" in let fs' := fresh "fs'" in
          destruct (spawn e c f) as [r fs'] eqn:?; destruct r
      | |- context [Z.eqb ?c 0] => destruct (Z.eqb_spec c 0); [subst c|]
      | |- context [String.eqb ?a ?b] => destruct (String.eqb a b)
      | |- context [stdin w] => destruct (stdin w)
      | |- context [@lookup _ _ (gmap _ _) _ "pretrained_models" ?m] =>
          destruct (m !! "pretrained_models") as [[|]|] eqn:?
      | |- context [isinstance ?e ?c] => destruct (isinstance e c) eqn:?
      end).
    all: intros [= <-]; try discriminate; simpl.
    all: eapply Hgit; eassumption.
  - unfold download_via_sdk, MODELS_getitem.
    change (assoc "ttsfrd" MODELS) with (Some ttsfrd_model).
    unfold snapshot_download, makedirs. run_script.
    repeat (simpl;
      match goal with
      | |- context [sdk_snapshot_download ?e ?a ?b ?f] =>
          let E := fresh "E" in
          destruct (sdk_snapshot_download e a b f) as [[?|] ?] eqn:E
      | |- context [import_modelscope ?e] => destruct (import_modelscope e)
      | |- context [@lookup _ _ (gmap _ _) _ "pretrained_models" ?m] =>
          destruct (m !! "pretrained_models") as [[|]|] eqn:?
      | |- context [isinstance ?e ?c] => destruct (isinstance e c) eqn:?
      end).
    all: intros [= <-]; try discriminate; simpl.
    all: eapply Hsdk; eassumption.
Qed.

(** X16: the two wheels are optional to the end: when the extraction
    went through and neither wheel is there afterwards, [install_ttsfrd]
    runs no install, prints that the package was installed and returns
    [True]. *)
Theorem install_without_wheels_reports_success env w fs1 :
  is_Some (fs w !! ttsfrd_dir) ->
  is_Some (fs w !! resource_zip) ->
  spawn env unzip_cmd (fs w) = (Exited 0, fs1) ->
  fs1 !! dependency_whl = None ->
  fs1 !! ttsfrd_whl = None ->
  install_ttsfrd env w =
    (Ok true,
     mkWorld fs1 (stdin w)
       (stdout w ++ install_banner
          ++ ["Extracting resource.zip...";
              nl +:+ "✓ Successfully installed ttsfrd package";
              "Note: ttsfrd is optional. If not installed, WeText will be used by default."])
       (trace w ++ [EvExists ttsfrd_dir true; EvExists resource_zip true;
                    EvRun unzip_cmd (Exited 0);
                    EvExists dependency_whl false;
                    EvExists ttsfrd_whl false])).
Proof.
  intros [m Hd] [m' Hz] Hu Hw1 Hw2.
  unfold install_ttsfrd, subprocess_run. run_script.
  rewrite Hd. simpl. rewrite Hz. simpl. rewrite Hu. simpl.
  rewrite Hw1. simpl. rewrite Hw2. simpl.
  rewrite <- !app_assoc. reflexivity.
Qed.

(** ** The further properties on concrete machines *)

Lemma install_without_wheels_reports_success_witness :
  (install_ttsfrd no_wheels_env downloaded_world).1 = Ok true
  ∧ runs (trace (install_ttsfrd no_wheels_env downloaded_world).2)
    = [unzip_cmd].
Proof.
  rewrite (install_without_wheels_reports_success no_wheels_env
             downloaded_world downloaded_fs).
  - split; reflexivity.
  - exists Dir. vm_compute. reflexivity.
  - exists File. vm_compute. reflexivity.
  - reflexivity.
  - reflexivity.
  - reflexivity.
Defined.

Lemma sdk_fetch_succeeds_witness :
  (download_via_sdk (machine_env full_machine) "sft" empty_world).1 = Ok true
  ∧ fs (download_via_sdk (machine_env full_machine) "sft" empty_world).2
    = <[local_dir sft_model := Dir]> (<["pretrained_models" := Dir]> ∅).
Proof.
  rewrite (sdk_fetch_succeeds (machine_env full_machine) "sft" sft_model
             empty_world
             (<[local_dir sft_model := Dir]> (<["pretrained_models" := Dir]> ∅))).
  - split; reflexivity.
  - reflexivity.
  - reflexivity.
  - unfold root_ok. simpl. rewrite lookup_empty. discriminate.
  - reflexivity.
Defined.

Lemma sdk_transfer_failure_reported_witness :
  (download_via_sdk (machine_env sft_unreachable_machine) "sft"
     empty_world).1 = Ok false
  ∧ last (stdout (download_via_sdk (machine_env sft_unreachable_machine)
                    "sft" empty_world).2)
    = Some (nl +:+ "✗ Error downloading CosyVoice-300M-SFT: Connection refused").
Proof.
  rewrite (sdk_transfer_failure_reported (machine_env sft_unreachable_machine)
             "sft" sft_model empty_world (Exc RuntimeError "Connection refused")
             (<["pretrained_models" := Dir]> ∅)).
  - split; reflexivity.
  - reflexivity.
  - reflexivity.
  - unfold root_ok. simpl. rewrite lookup_empty. discriminate.
  - reflexivity.
  - reflexivity.
Defined.

Lemma sdk_catches_every_exception_witness :
  ∃ b w',
    download_via_sdk (machine_env full_machine) "sft" root_is_a_file
    = (Ok b, w')
    ∧ stdin w' = stdin root_is_a_file.
Proof.
  apply (sdk_catches_every_exception (machine_env full_machine) "sft"
           root_is_a_file).
  - simpl. tauto.
  - apply (import_fault _ (machine_env_handled full_machine)).
  - apply (snapshot_fault _ (machine_env_handled full_machine)).
Defined.

Lemma sdk_lets_interrupt_through_witness :
  (download_via_sdk interrupted_env "sft" empty_world).1
  = Raise (Exc KeyboardInterrupt "").
Proof.
  rewrite (sdk_lets_interrupt_through interrupted_env "sft" sft_model
             empty_world (Exc KeyboardInterrupt "")
             (<["pretrained_models" := Dir]> ∅)).
  - reflexivity.
  - reflexivity.
  - reflexivity.
  - unfold root_ok. simpl. rewrite lookup_empty. discriminate.
  - reflexivity.
  - reflexivity.
Defined.

Lemma clone_fetch_succeeds_witness :
  (download_via_git (machine_env full_machine) "sft"
     (mkWorld ∅ ["n"] [] [])).1 = Ok true
  ∧ stdin (download_via_git (machine_env full_machine) "sft"
             (mkWorld ∅ ["n"] [] [])).2 = ["n"].
Proof.
  rewrite (clone_fetch_succeeds (machine_env full_machine) "sft" sft_model
             (mkWorld ∅ ["n"] [] []) ∅
             (<[local_dir sft_model := Dir]> (<["pretrained_models" := Dir]> ∅))).
  - split; reflexivity.
  - reflexivity.
  - reflexivity.
  - unfold root_ok. rewrite lookup_empty. discriminate.
  - reflexivity.
Defined.


Lemma missing_git_reported_witness :
  (download_via_git (machine_env no_git_machine) "sft"
     (mkWorld ∅ ["Y"] [] [])).1 = Ok false
  ∧ last (stdout (download_via_git (machine_env no_git_machine) "sft"
                    (mkWorld ∅ ["Y"] [] [])).2)
    = Some (nl +:+ "✗ Error: git is not installed").
Proof.
  rewrite (missing_git_reported (machine_env no_git_machine) "sft" sft_model
             (mkWorld ∅ ["Y"] [] [])
             (Exc FileNotFoundError
                "[Errno 2] No such file or directory: 'git'")
             ∅ "Y" []
             (Exc FileNotFoundError
                "[Errno 2] No such file or directory: 'git'")
             (<["pretrained_models" := Dir]> ∅)).
  - split; reflexivity.
  - reflexivity.
  - reflexivity.
  - reflexivity.
  - reflexivity.
  - reflexivity.
  - unfold root_ok. rewrite lookup_empty. discriminate.
  - reflexivity.
  - reflexivity.
Defined.

Lemma clone_goes_on_only_after_y_witness :
  (∃ ok, In (EvMakedirs "pretrained_models" ok)
           (new_events (mkWorld ∅ ["Y"] [] [])
              (download_via_git (machine_env no_lfs_machine) "sft"
                 (mkWorld ∅ ["Y"] [] [])).2))
  ∧ ¬ (∃ ok, In (EvMakedirs "pretrained_models" ok)
           (new_events (mkWorld ∅ ["yes"] [] [])
              (download_via_git (machine_env no_lfs_machine) "sft"
                 (mkWorld ∅ ["yes"] [] [])).2)).
Proof.
  split.
  - apply (clone_goes_on_only_after_y (machine_env no_lfs_machine) "sft"
             sft_model (mkWorld ∅ ["Y"] [] []) (Exited 1) ∅ "Y" []);
      [reflexivity | reflexivity | simpl; lia | reflexivity | by right].
  - rewrite (clone_goes_on_only_after_y (machine_env no_lfs_machine) "sft"
               sft_model (mkWorld ∅ ["yes"] [] []) (Exited 1) ∅ "yes" []);
      [| reflexivity | reflexivity | simpl; lia | reflexivity].
    intros [H|H]; discriminate H.
Defined.

Lemma main_without_selection_only_lists_witness :
  fs (main (machine_env full_machine)
        (mkArgs (Some "sft") true "git" true true) empty_world).2 = ∅
  ∧ runs (trace (main (machine_env full_machine)
                   (mkArgs (Some "sft") true "git" true true)
                   empty_world).2) = [].
Proof.
  rewrite (main_without_selection_only_lists (machine_env full_machine)
             (mkArgs (Some "sft") true "git" true true) empty_world).
  - split; reflexivity.
  - by left.
Defined.

Lemma success_count_within_batch_witness :
  (0 ≤ 2 ∧ 2 ≤ 0 + 3)%nat.
Proof.
  apply (success_count_within_batch
           (choose_download_func (machine_env sft_unreachable_machine) "sdk")
           ["cosyvoice2"; "sft"; "instruct"] 0 empty_world 2
           (download_loop
              (choose_download_func (machine_env sft_unreachable_machine) "sdk")
              ["cosyvoice2"; "sft"; "instruct"] 0 empty_world).2).
  vm_compute. reflexivity.
Defined.

Lemma missing_interpreter_blamed_on_unzip_witness :
  (install_ttsfrd (without_interpreter (machine_env full_machine))
     downloaded_world).1 = Ok false
  ∧ last (stdout (install_ttsfrd (without_interpreter (machine_env full_machine))
                    downloaded_world).2)
    = Some "Please install unzip first or manually extract resource.zip".
Proof.
  rewrite (missing_interpreter_blamed_on_unzip
             (without_interpreter (machine_env full_machine)) downloaded_world
             (<[ttsfrd_whl := File]> (<[dependency_whl := File]> downloaded_fs))
             File
             (Exc FileNotFoundError
                "[Errno 2] No such file or directory: '/usr/bin/python3'")
             (<[ttsfrd_whl := File]> (<[dependency_whl := File]> downloaded_fs))).
  - split; reflexivity.
  - exists Dir. vm_compute. reflexivity.
  - exists File. vm_compute. reflexivity.
  - reflexivity.
  - rewrite lookup_insert_ne by (intros H; vm_compute in H; discriminate).
    apply lookup_insert_eq.
  - reflexivity.
  - reflexivity.
Defined.

Lemma populate_present dir fs : is_Some (populate dir fs !! dir).
Proof.
  unfold populate. destruct (String.eqb_spec dir ttsfrd_dir) as [->|_].
  - rewrite lookup_insert_ne, lookup_insert_eq; [eauto|].
    intros H. vm_compute in H. discriminate.
  - rewrite lookup_insert_eq. eauto.
Qed.

Lemma machine_snapshot_creates m rp dir fs0 fs' :
  sdk_snapshot_download (machine_env m) rp dir fs0 = (None, fs') ->
  is_Some (fs' !! dir).
Proof.
  simpl. destruct (existsb _ _); [done|]. intros [= <-].
  apply populate_present.
Qed.

Lemma machine_clone_creates m model fs0 fs' :
  spawn (machine_env m) (clone_cmd model) fs0 = (Exited 0, fs') ->
  is_Some (fs' !! local_dir model).
Proof.
  simpl. unfold machine_spawn, clone_cmd. simpl.
  destruct (has_git m); [|done].
  destruct (existsb _ _); [done|]. intros [= <-].
  apply populate_present.
Qed.

Lemma fetched_ttsfrd_is_found_by_install_witness :
  ∃ tail,
    trace (install_ttsfrd (machine_env full_machine)
             (download_via_git (machine_env full_machine) "ttsfrd"
                empty_world).2).2
    = trace (download_via_git (machine_env full_machine) "ttsfrd"
               empty_world).2
      ++ EvExists ttsfrd_dir true :: tail.
Proof.
  apply (fetched_ttsfrd_is_found_by_install (machine_env full_machine) "git"
           empty_world).
  - apply machine_snapshot_creates.
  - apply machine_clone_creates.
  - reflexivity.
Defined.
